(** * twitch-client: the OAuth scripts (auth.js, auth-server.js, test-api.js)

    A shallow embedding of the three Node scripts.  Every script is a
    straight line of console output, HTTP requests and, for the callback
    server, HTTP responses; the embedding keeps that shape: a function of
    the source becomes a computation in a small monad that records the
    effects it performs, in order, and ends either by returning a value or
    by throwing.

    What the platform supplies is an input of the model, not part of it:
    - [new URL(req.url, base)] : the handler receives the parsed URL, its
      [pathname] and its [searchParams] (decoded name/value pairs, in order);
    - [fetch] : a [network], which tells for every request whether the
      promise rejects or which response it resolves to;
    - [response.json()] : the response carries the value [JSON.parse] would
      give for its body, or nothing when the body is not JSON;
    - [process.env] : a record of the five variables the scripts read.

    Strings are Rocq strings.  The values the scripts handle (tokens, ids,
    scope names, URLs) are ASCII, where one character is at once a UTF-16
    code unit and a UTF-8 byte. *)

From Stdlib Require Import String Ascii List ZArith Bool Lia Floats.
Import ListNotations.
Local Open Scope list_scope.
Local Open Scope Z_scope.
Local Open Scope string_scope.
Set Warnings "-register-all".

(** ** JavaScript values *)

(** The values [JSON.parse] can produce, plus [undefined], which reading an
    absent property yields.  An object is the list of its own properties, a
    number is an IEEE 754 double as in JavaScript. *)
Inductive jsval : Type :=
| JUndefined
| JNull
| JBool (b : bool)
| JNum (n : float)
| JStr (s : string)
| JArr (items : list jsval)
| JObj (props : list (string * jsval)).

(** ToBoolean: [undefined], [null], [false], [0], [-0], [NaN] and the empty
    string are falsy, everything else (every array and object too) is truthy. *)
Definition truthy (v : jsval) : bool :=
  match v with
  | JUndefined | JNull => false
  | JBool b => b
  | JNum n => negb (PrimFloat.is_zero n || PrimFloat.is_nan n)
  | JStr s => negb (String.eqb s "")
  | JArr _ | JObj _ => true
  end.

(** [v === undefined || v === null] *)
Definition nullish (v : jsval) : bool :=
  match v with
  | JUndefined | JNull => true
  | _ => false
  end.

(** The own property [k] of an object, if it has one. *)
Fixpoint own_prop (props : list (string * jsval)) (k : string) : option jsval :=
  match props with
  | [] => None
  | (k', v) :: rest => if String.eqb k' k then Some v else own_prop rest k
  end.

(** The exceptions the scripts can meet. *)
Inductive exn : Type :=
| TypeError      (* property of null/undefined, call of a non-function, ... *)
| SyntaxError    (* response.json() on a body that is not JSON *)
| FetchFailed.   (* fetch() rejected: no response at all *)

(** ** Text

    The scripts build strings with template literals and pass them to the
    console or to the HTTP response.  A text is the sequence of its pieces;
    the digits of a number and the output of [JSON.stringify] are kept as
    pieces of their own instead of being spelled out. *)
Inductive piece : Type :=
| Chars (s : string)
| NumText (n : float)          (* Number.prototype.toString *)
| JsonText (v : jsval).        (* JSON.stringify(v, null, 2) *)

Definition text := list piece.

(** Is the text the empty string?  A number and a JSON rendering never are. *)
Definition text_empty (t : text) : bool :=
  forallb (fun p => match p with Chars s => String.eqb s "" | _ => false end) t.

(** ToString, as a template literal [`${v}`] applies it.  An array is its
    elements joined by commas ([Array.prototype.toString] calls [join]), an
    element that is [null] or [undefined] giving the empty string.  A plain
    object is "[object Object]" through [Object.prototype.toString], unless
    it has an own property named [toString]: a parsed JSON value is never a
    function, so OrdinaryToPrimitive finds no usable method ([valueOf]
    returns the object itself) and throws a TypeError. *)
Fixpoint to_string (v : jsval) : option text :=
  match v with
  | JUndefined => Some [Chars "undefined"]
  | JNull => Some [Chars "null"]
  | JBool true => Some [Chars "true"]
  | JBool false => Some [Chars "false"]
  | JNum n => Some [NumText n]
  | JStr s => Some [Chars s]
  | JArr items =>
      (fix join_items (l : list jsval) : option text :=
         match l with
         | [] => Some []
         | x :: rest =>
             match (if nullish x then Some [] else to_string x), join_items rest with
             | Some t, Some ts =>
                 Some (t ++ match rest with [] => [] | _ => Chars "," :: ts end)%list
             | _, _ => None
             end
         end) items
  | JObj props =>
      match own_prop props "toString" with
      | Some _ => None
      | None => Some [Chars "[object Object]"]
      end
  end.

(** [Array.prototype.join(sep)] on the elements of an array. *)
Fixpoint join (sep : string) (items : list jsval) : option text :=
  match items with
  | [] => Some []
  | x :: rest =>
      match (if nullish x then Some [] else to_string x), join sep rest with
      | Some t, Some ts =>
          Some (t ++ match rest with [] => [] | _ => Chars sep :: ts end)%list
      | _, _ => None
      end
  end.

(** A string that may be missing: a variable of [process.env] ([undefined]
    when unset) or the result of [searchParams.get] ([null] when absent).
    [present] is its truthiness: set, and not the empty string. *)
Definition present (o : option string) : bool :=
  match o with
  | Some s => negb (String.eqb s "")
  | None => false
  end.

Definition or_undefined (o : option string) : string :=
  match o with Some s => s | None => "undefined" end.

Definition or_null (o : option string) : string :=
  match o with Some s => s | None => "null" end.

Definition nl : string := String (ascii_of_nat 10) "".

(** ** The platform: URLs, the network, the environment *)

(** A parsed URL: what [new URL(...)] exposes to the scripts. *)
Record URL : Type := mkURL {
  origin : string;
  pathname : string;
  searchParams : list (string * string)
}.

(** [URLSearchParams.prototype.get]: the value of the first pair of that
    name, [null] when there is none. *)
Fixpoint params_get (ps : list (string * string)) (name : string) : option string :=
  match ps with
  | [] => None
  | (k, v) :: rest => if String.eqb k name then Some v else params_get rest name
  end.

(** [URLSearchParams.prototype.set]: the first pair of that name takes the
    value and the others are removed; without one the pair is appended. *)
Fixpoint params_set (ps : list (string * string)) (name value : string)
  : list (string * string) :=
  match ps with
  | [] => [(name, value)]
  | (k, v) :: rest =>
      if String.eqb k name
      then (name, value) :: filter (fun p => negb (String.eqb (fst p) name)) rest
      else (k, v) :: params_set rest name value
  end.

(** The application/x-www-form-urlencoded serializer, byte by byte: letters,
    digits and [* - . _] stay, a space becomes [+], any other byte becomes
    [%XX] in upper-case hexadecimal. *)
Definition form_safe (c : ascii) : bool :=
  let n := nat_of_ascii c in
  ((48 <=? n) && (n <=? 57) || (65 <=? n) && (n <=? 90) || (97 <=? n) && (n <=? 122)
   || (n =? 42) || (n =? 45) || (n =? 46) || (n =? 95))%nat.

Definition hex_digit (n : nat) : ascii :=
  ascii_of_nat (if (n <? 10)%nat then 48 + n else 55 + n)%nat.

Definition encode_byte (c : ascii) : string :=
  if form_safe c then String c ""
  else if Ascii.eqb c " " then "+"
  else String "%" (String (hex_digit (nat_of_ascii c / 16))
                     (String (hex_digit (nat_of_ascii c mod 16)) "")).

Fixpoint form_encode (s : string) : string :=
  match s with
  | EmptyString => ""
  | String c rest => encode_byte c ++ form_encode rest
  end.

Fixpoint form_serialize (ps : list (string * string)) : string :=
  match ps with
  | [] => ""
  | (k, v) :: rest =>
      form_encode k ++ "=" ++ form_encode v
      ++ match rest with [] => "" | _ => "&" ++ form_serialize rest end
  end.

(** The way back, as a browser or server reads a query string: cut at every
    [&], cut each piece at its first [=], turn [+] into a space and [%XX]
    into the byte.  A [%] that two hexadecimal digits do not follow is
    refused here. *)
Definition hex_value (c : ascii) : option nat :=
  let n := nat_of_ascii c in
  if ((48 <=? n) && (n <=? 57))%nat then Some (n - 48)%nat
  else if ((65 <=? n) && (n <=? 70))%nat then Some (n - 55)%nat
  else if ((97 <=? n) && (n <=? 102))%nat then Some (n - 87)%nat
  else None.

Fixpoint form_decode (s : string) : option string :=
  match s with
  | EmptyString => Some EmptyString
  | String c rest =>
      if Ascii.eqb c "+" then option_map (String " ") (form_decode rest)
      else if Ascii.eqb c "%" then
        match rest with
        | String a (String b rest') =>
            match hex_value a, hex_value b with
            | Some x, Some y =>
                option_map (String (ascii_of_nat (16 * x + y))) (form_decode rest')
            | _, _ => None
            end
        | _ => None
        end
      else option_map (String c) (form_decode rest)
  end.

(** The pieces of [s] between the occurrences of [sep]. *)
Fixpoint split_all (sep : ascii) (s : string) : list string :=
  match s with
  | EmptyString => [EmptyString]
  | String c rest =>
      if Ascii.eqb c sep then EmptyString :: split_all sep rest
      else match split_all sep rest with
           | piece :: pieces => String c piece :: pieces
           | [] => [String c EmptyString]
           end
  end.

(** [s] cut at the first [sep]: what stands before it and what stands after
    it, the latter empty when there is no [sep]. *)
Fixpoint split_first (sep : ascii) (s : string) : string * string :=
  match s with
  | EmptyString => (EmptyString, EmptyString)
  | String c rest =>
      if Ascii.eqb c sep then (EmptyString, rest)
      else let (before, behind) := split_first sep rest in (String c before, behind)
  end.

Fixpoint parse_pieces (pieces : list string) : option (list (string * string)) :=
  match pieces with
  | [] => Some []
  | EmptyString :: rest => parse_pieces rest
  | piece :: rest =>
      let (k, v) := split_first "=" piece in
      match form_decode k, form_decode v, parse_pieces rest with
      | Some k', Some v', Some ps => Some ((k', v') :: ps)
      | _, _, _ => None
      end
  end.

Definition form_parse (query : string) : option (list (string * string)) :=
  parse_pieces (split_all "&" query).

(** Every character of [s] satisfies [p]. *)
Fixpoint every (p : ascii -> bool) (s : string) : bool :=
  match s with
  | EmptyString => true
  | String c rest => p c && every p rest
  end.

(** The characters the serializer writes for a name or a value. *)
Definition form_char (c : ascii) : bool :=
  form_safe c || Ascii.eqb c "+" || Ascii.eqb c "%".

(** [URL.prototype.toString] *)
Definition href (u : URL) : string :=
  origin u ++ pathname u
  ++ match searchParams u with [] => "" | ps => "?" ++ form_serialize ps end.

(** What [fetch] is called with: the method, the URL, the headers and, for a
    POST, the fields of the [URLSearchParams] body. *)
Record request : Type := mkRequest {
  req_method : string;
  req_url : string;
  req_headers : list (string * string);
  req_form : list (string * string)
}.

(** What [fetch] resolves to.  [body] is the value [response.json()]
    resolves to, [None] when the body is not JSON and the promise rejects. *)
Record response : Type := mkResponse {
  status : Z;
  headers : list (string * string);
  body : option jsval
}.

(** [response.ok] *)
Definition ok (r : response) : bool :=
  ((200 <=? status r) && (status r <=? 299))%Z.

Definition lower_ascii (c : ascii) : ascii :=
  let n := nat_of_ascii c in
  if ((65 <=? n) && (n <=? 90))%nat then ascii_of_nat (n + 32) else c.

Fixpoint lower (s : string) : string :=
  match s with
  | EmptyString => EmptyString
  | String c rest => String (lower_ascii c) (lower rest)
  end.

(** [Headers.prototype.get]: names compare without regard to case. *)
Fixpoint headers_get (hs : list (string * string)) (name : string) : option string :=
  match hs with
  | [] => None
  | (k, v) :: rest =>
      if String.eqb (lower k) (lower name) then Some v else headers_get rest name
  end.

Inductive fetched : Type :=
| Rejected                     (* no connection, DNS failure, ... *)
| Resolved (r : response).

Definition network := request -> fetched.

(** [process.env], after dotenv has loaded the secrets file. *)
Record environment : Type := mkEnv {
  TWITCH_CLIENT_ID : option string;
  TWITCH_CLIENT_SECRET : option string;
  TWITCH_ACCESS_TOKEN : option string;
  TWITCH_REFRESH_TOKEN : option string;
  TWITCH_USERNAME : option string
}.

(** ** Effects *)

(** An argument of [console.log]: a string, printed as it is, or another
    value, printed by the console's inspector. *)
Inductive arg : Type :=
| Str (t : text)
| Val (v : jsval).

Inductive effect : Type :=
| WriteHead (code : Z) (hs : list (string * string))    (* res.writeHead *)
| End (page : text)                                     (* res.end *)
| ConsoleLog (args : list arg)
| ConsoleError (args : list arg)
| Fetch (r : request)
| SetTimeout (callback : list effect) (ms : Z)
| ProcessExit (code : Z).

Definition trace := list effect.

Inductive outcome (A : Type) : Type :=
| Returned (a : A)
| Threw (e : exn).
Arguments Returned {A} a.
Arguments Threw {A} e.

(** A computation: given the network, the effects it performs, in order, and
    how it ends.  An [async] function that ends in [Threw] is a promise
    that rejects. *)
Definition M (A : Type) : Type := network -> trace * outcome A.

Definition ret {A} (a : A) : M A := fun _ => ([], Returned a).

Definition throw {A} (e : exn) : M A := fun _ => ([], Threw e).

Definition bind {A B} (c : M A) (k : A -> M B) : M B :=
  fun net =>
    match c net with
    | (t1, Returned a) => let (t2, r) := k a net in ((t1 ++ t2)%list, r)
    | (t1, Threw e) => (t1, Threw e)
    end.

Notation "x <- c ;; k" := (bind c (fun x => k))
  (at level 61, c at next level, right associativity).
Notation "c ;; k" := (bind c (fun _ => k))
  (at level 61, right associativity).

Definition emit (e : effect) : M unit := fun _ => ([e], Returned tt).

Definition console_log (args : list arg) : M unit := emit (ConsoleLog args).
Definition console_error (args : list arg) : M unit := emit (ConsoleError args).
Definition writeHead (code : Z) (hs : list (string * string)) : M unit :=
  emit (WriteHead code hs).
Definition end_ (page : text) : M unit := emit (End page).
Definition setTimeout (callback : trace) (ms : Z) : M unit :=
  emit (SetTimeout callback ms).

(** [await fetch(...)] *)
Definition fetch (r : request) : M response :=
  fun net =>
    ([Fetch r],
     match net r with
     | Rejected => Threw FetchFailed
     | Resolved resp => Returned resp
     end).

(** [await response.json()] *)
Definition json (r : response) : M jsval :=
  match body r with
  | Some v => ret v
  | None => throw SyntaxError
  end.

(** [v.k] for a data property [k].  [null] and [undefined] have no
    properties; a string, number, boolean or array has none of the names the
    scripts read (they are not on the built-in prototypes). *)
Definition field (v : jsval) (k : string) : jsval :=
  match v with
  | JObj props => match own_prop props k with Some x => x | None => JUndefined end
  | _ => JUndefined
  end.

Definition get (v : jsval) (k : string) : M jsval :=
  if nullish v then throw TypeError else ret (field v k).

(** A template literal: literal chunks and substitutions [${v}]. *)
Inductive part : Type :=
| Lit (s : string)
| Sub (v : jsval).

Fixpoint template (ps : list part) : M text :=
  match ps with
  | [] => ret []
  | Lit s :: rest => t <- template rest ;; ret (Chars s :: t)
  | Sub v :: rest =>
      match to_string v with
      | Some tv => t <- template rest ;; ret (tv ++ t)%list
      | None => throw TypeError
      end
  end.

(** [v.join(sep)]: only an array has a [join] method. *)
Definition call_join (v : jsval) (sep : string) : M text :=
  match v with
  | JArr items =>
      match join sep items with
      | Some t => ret t
      | None => throw TypeError
      end
  | _ => throw TypeError
  end.

(** [v.substring(0, n)]: only a string has a [substring] method. *)
Definition call_substring (v : jsval) (n : nat) : M text :=
  match v with
  | JStr s => ret [Chars (substring 0 n s)]
  | _ => throw TypeError
  end.

(** [s || d] for [s] a string or [undefined]: [d] replaces [undefined] and
    the empty string. *)
Definition or_else (s : option text) (d : text) : text :=
  match s with
  | Some t => if text_empty t then d else t
  | None => d
  end.

(** [t] happened first, then the run [r]. *)
Definition after {A} (t : trace) (r : trace * outcome A) : trace * outcome A :=
  ((t ++ fst r)%list, snd r).

(** The text a value converts to, empty when the conversion throws. *)
Definition text_of (v : jsval) : text :=
  match to_string v with Some t => t | None => [] end.

(** The value converts to a string without throwing.  Every primitive does. *)
Definition printable (v : jsval) : bool :=
  match to_string v with Some _ => true | None => false end.

(** [v.join(sep)] succeeds: [v] is an array whose elements are [null],
    [undefined] or printable. *)
Definition joinable (v : jsval) : bool :=
  match v with
  | JArr items => match join ", " items with Some _ => true | None => false end
  | _ => false
  end.

Definition joined (v : jsval) : text :=
  match v with
  | JArr items => match join ", " items with Some t => t | None => [] end
  | _ => []
  end.

(** The scopes as the callback listener prints them:
    [scope?.join(', ') || 'none']. *)
Definition scopes_line (scope : jsval) : text :=
  or_else (if nullish scope then None else Some (joined scope)) [Chars "none"].

(** A template literal without effects: the text, unless a substitution
    throws. *)
Fixpoint parts_text (ps : list part) : option text :=
  match ps with
  | [] => Some []
  | Lit s :: rest =>
      match parts_text rest with Some t => Some (Chars s :: t) | None => None end
  | Sub v :: rest =>
      match to_string v, parts_text rest with
      | Some tv, Some t => Some (tv ++ t)%list
      | _, _ => None
      end
  end.



(** ** What a trace did *)

(** The number of HTTP requests sent. *)
Fixpoint fetches (t : trace) : nat :=
  match t with
  | [] => 0%nat
  | Fetch _ :: rest => S (fetches rest)
  | _ :: rest => fetches rest
  end.

(** The status lines written to the HTTP response. *)
Fixpoint statuses (t : trace) : list Z :=
  match t with
  | [] => []
  | WriteHead code _ :: rest => code :: statuses rest
  | _ :: rest => statuses rest
  end.

(** The bodies written to the HTTP response. *)
Fixpoint pages (t : trace) : list text :=
  match t with
  | [] => []
  | End page :: rest => page :: pages rest
  | _ :: rest => pages rest
  end.

(** Does the effect end the process, at once or when a timer fires? *)
Fixpoint exits (e : effect) : bool :=
  match e with
  | ProcessExit _ => true
  | SetTimeout callback _ => existsb exits callback
  | _ => false
  end.

(** The process goes on after the computation: it returned, and nothing it
    did exits or schedules an exit. *)
Definition keeps_running {A} (r : trace * outcome A) : Prop :=
  existsb exits (fst r) = false /\ exists a, snd r = Returned a.

(** The delay, in milliseconds, after which the process exits: 0 for a direct
    [process.exit], the delay of the timer for an exit in its callback. *)
Fixpoint exit_delay (t : trace) : option Z :=
  match t with
  | [] => None
  | ProcessExit _ :: _ => Some 0
  | SetTimeout callback ms :: rest =>
      if existsb exits callback then Some ms else exit_delay rest
  | _ :: rest => exit_delay rest
  end.

(** ** auth-server.js: the callback listener *)

Module AuthServer.
Section Script.

Variable env : environment.

Definition CLIENT_ID : option string := TWITCH_CLIENT_ID env.
Definition CLIENT_SECRET : option string := TWITCH_CLIENT_SECRET env.
Definition REDIRECT_URI : string := "http://localhost:3000/callback".
Definition PORT : Z := 3000.

Definition html : list (string * string) := [("Content-Type", "text/html")].
Definition plain : list (string * string) := [("Content-Type", "text/plain")].

(** The request [exchangeCodeForToken] sends. *)
Definition token_request (code : option string) : request :=
  {| req_method := "POST";
     req_url := "https://id.twitch.tv/oauth2/token";
     req_headers := [("Content-Type", "application/x-www-form-urlencoded")];
     req_form := [("client_id", or_undefined CLIENT_ID);
                  ("client_secret", or_undefined CLIENT_SECRET);
                  ("code", or_null code);
                  ("grant_type", "authorization_code");
                  ("redirect_uri", REDIRECT_URI)] |}.

Definition exchangeCodeForToken (code : option string) : M jsval :=
  response <- fetch (token_request code) ;;
  json response.

Definition success_page : string :=
  nl ++ "          <h1>Authorization Successful!</h1>" ++
  nl ++ "          <p>You can close this window.</p>" ++
  nl ++ "          <p>Check your terminal for the tokens.</p>" ++
  nl ++ "        ".

Definition rule : string := "========================================".

(** The callback of the timer set after a successful exchange. *)
Definition shutdown : trace :=
  [ConsoleLog [Str [Chars "Shutting down server..."]]; ProcessExit 0].

(** The request handler passed to [createServer]; [url] is
    [new URL(req.url, `http://localhost:${PORT}`)]. *)
Definition handler (url : URL) : M unit :=
  if String.eqb (pathname url) "/callback" then
    let code := params_get (searchParams url) "code" in
    let error := params_get (searchParams url) "error" in
    if present error then
      writeHead 400 html ;;
      end_ [Chars "<h1>Authorization Failed</h1><p>Error: ";
            Chars (or_null error); Chars "</p>"] ;;
      console_log [Str [Chars (nl ++ "Authorization denied by user")]] ;;
      ret tt
    else if present code then
      console_log [Str [Chars (nl ++ "Received authorization code, exchanging for token...")]] ;;
      tokens <- exchangeCodeForToken code ;;
      access_token <- get tokens "access_token" ;;
      if truthy access_token then
        writeHead 200 html ;;
        end_ [Chars success_page] ;;
        console_log [Str [Chars (nl ++ rule)]] ;;
        console_log [Str [Chars "SUCCESS! Update ~/twitch-secrets/.env:"]] ;;
        console_log [Str [Chars (rule ++ nl)]] ;;
        line <- template [Lit "TWITCH_ACCESS_TOKEN="; Sub access_token] ;;
        console_log [Str line] ;;
        refresh_token <- get tokens "refresh_token" ;;
        line <- template [Lit "TWITCH_REFRESH_TOKEN="; Sub refresh_token] ;;
        console_log [Str line] ;;
        console_log [Str [Chars (nl ++ rule)]] ;;
        expires_in <- get tokens "expires_in" ;;
        line <- template [Lit "Token expires in: "; Sub expires_in; Lit " seconds"] ;;
        console_log [Str line] ;;
        scope <- get tokens "scope" ;;
        scopes <- (if nullish scope then ret None
                   else t <- call_join scope ", " ;; ret (Some t)) ;;
        console_log [Str [Chars "Scopes:"]; Str (or_else scopes [Chars "none"])] ;;
        console_log [Str [Chars (rule ++ nl)]] ;;
        setTimeout shutdown 1000
      else
        writeHead 500 html ;;
        end_ [Chars "<h1>Token Exchange Failed</h1><pre>"; JsonText tokens;
              Chars "</pre>"] ;;
        console_error [Str [Chars "Token exchange failed:"]; Val tokens]
    else ret tt
  else
    writeHead 200 plain ;;
    end_ [Chars ("Twitch OAuth Callback Server" ++ nl ++ "Waiting for authorization...")].

End Script.
End AuthServer.

(** ** auth.js: the authorization URL, validation and refresh *)

Module Auth.
Section Script.

Variable env : environment.

Definition CLIENT_ID : option string := TWITCH_CLIENT_ID env.
Definition CLIENT_SECRET : option string := TWITCH_CLIENT_SECRET env.

(** The script fixes the redirect URI and the scopes as constants; the
    builder is stated over them, and the constants follow the section. *)
Variable REDIRECT_URI : string.
Variable scope_list : list string.

(** [[...].join(' ')] on an array of strings. *)
Definition SCOPES : string := String.concat " " scope_list.

(** [authUrl] once the four [searchParams.set] calls are done. *)
Definition authUrl : URL :=
  let u := {| origin := "https://id.twitch.tv";
              pathname := "/oauth2/authorize";
              searchParams := [] |} in
  let u := {| origin := origin u; pathname := pathname u;
              searchParams := params_set (searchParams u) "client_id" (or_undefined CLIENT_ID) |} in
  let u := {| origin := origin u; pathname := pathname u;
              searchParams := params_set (searchParams u) "redirect_uri" REDIRECT_URI |} in
  let u := {| origin := origin u; pathname := pathname u;
              searchParams := params_set (searchParams u) "response_type" "code" |} in
  {| origin := origin u; pathname := pathname u;
     searchParams := params_set (searchParams u) "scope" SCOPES |}.

Definition startUserAuthFlow : M unit :=
  console_log [Str [Chars ("Starting user authorization flow..." ++ nl)]] ;;
  console_log [Str [Chars "Open this URL in your browser:"]] ;;
  console_log [Str [Chars (href authUrl)]] ;;
  console_log [Str [Chars (nl ++ "Then run the callback server: node auth-server.js")]] ;;
  console_log [Str [Chars "After authorizing, you'll get an access token."]].

Definition validate_request (token : option string) : request :=
  {| req_method := "GET";
     req_url := "https://id.twitch.tv/oauth2/validate";
     req_headers := [("Authorization", "OAuth " ++ or_undefined token)];
     req_form := [] |}.

Definition validateToken : M jsval :=
  let token := TWITCH_ACCESS_TOKEN env in
  if negb (present token) then
    console_log [Str [Chars "No TWITCH_ACCESS_TOKEN found in ~/twitch-secrets/.env"]] ;;
    ret JNull
  else
    console_log [Str [Chars ("Validating access token..." ++ nl)]] ;;
    response <- fetch (validate_request token) ;;
    if ok response then
      data <- json response ;;
      console_log [Str [Chars "Token is VALID"]] ;;
      login <- get data "login" ;;
      line <- template [Lit "  User: "; Sub login] ;;
      console_log [Str line] ;;
      user_id <- get data "user_id" ;;
      line <- template [Lit "  User ID: "; Sub user_id] ;;
      console_log [Str line] ;;
      scopes <- get data "scopes" ;;
      joined <- call_join scopes ", " ;;
      console_log [Str (Chars "  Scopes: " :: joined)] ;;
      expires_in <- get data "expires_in" ;;
      line <- template [Lit "  Expires in: "; Sub expires_in; Lit " seconds"] ;;
      console_log [Str line] ;;
      ret data
    else
      console_log [Str [Chars "Token is INVALID or EXPIRED"]] ;;
      console_log [Str [Chars "Run: node auth.js refresh"]] ;;
      ret JNull.

Definition refresh_request (refreshToken : option string) : request :=
  {| req_method := "POST";
     req_url := "https://id.twitch.tv/oauth2/token";
     req_headers := [("Content-Type", "application/x-www-form-urlencoded")];
     req_form := [("client_id", or_undefined CLIENT_ID);
                  ("client_secret", or_undefined CLIENT_SECRET);
                  ("grant_type", "refresh_token");
                  ("refresh_token", or_undefined refreshToken)] |}.

Definition refreshToken : M jsval :=
  let refreshToken := TWITCH_REFRESH_TOKEN env in
  if negb (present refreshToken) then
    console_log [Str [Chars "No TWITCH_REFRESH_TOKEN found in ~/twitch-secrets/.env"]] ;;
    console_log [Str [Chars "Run: node auth.js user  (to get a new token)"]] ;;
    ret JNull
  else
    console_log [Str [Chars ("Refreshing access token..." ++ nl)]] ;;
    response <- fetch (refresh_request refreshToken) ;;
    data <- json response ;;
    access_token <- get data "access_token" ;;
    if truthy access_token then
      console_log [Str [Chars "Token refreshed successfully!"]] ;;
      head <- call_substring access_token 10 ;;
      console_log [Str (Chars "New access token: " :: (head ++ [Chars "..."])%list)] ;;
      refresh_token <- get data "refresh_token" ;;
      head <- call_substring refresh_token 10 ;;
      console_log [Str (Chars "New refresh token: " :: (head ++ [Chars "..."])%list)] ;;
      console_log [Str [Chars (nl ++ "Update ~/twitch-secrets/.env with these values:")]] ;;
      line <- template [Lit "TWITCH_ACCESS_TOKEN="; Sub access_token] ;;
      console_log [Str line] ;;
      line <- template [Lit "TWITCH_REFRESH_TOKEN="; Sub refresh_token] ;;
      console_log [Str line] ;;
      ret data
    else
      console_error [Str [Chars "Refresh failed:"]; Val data] ;;
      ret JNull.

End Script.

(** The constants of the script. *)
Definition REDIRECT_URI : string := "http://localhost:3000/callback".
Definition scope_list : list string :=
  ["moderator:read:followers"; "channel:read:subscriptions"].

End Auth.

(** ** test-api.js: the Helix probe *)

Module TestApi.
Section Script.

Variable env : environment.

Definition CLIENT_ID : option string := TWITCH_CLIENT_ID env.
Definition ACCESS_TOKEN : option string := TWITCH_ACCESS_TOKEN env.
Definition API_BASE : string := "https://api.twitch.tv/helix".

(** What [apiCall] returns: [{ status: response.status, data }]. *)
Record result : Type := mkResult {
  res_status : Z;
  res_data : jsval
}.

Definition api_request (endpoint : string) : request :=
  {| req_method := "GET";
     req_url := API_BASE ++ endpoint;
     req_headers := [("Authorization", "Bearer " ++ or_undefined ACCESS_TOKEN);
                     ("Client-Id", or_undefined CLIENT_ID)];
     req_form := [] |}.

Definition apiCall (endpoint : string) : M result :=
  let url := API_BASE ++ endpoint in
  console_log [Str [Chars ("GET " ++ url ++ nl)]] ;;
  response <- fetch (api_request endpoint) ;;
  console_log [Str [Chars "Rate Limit Info:"]] ;;
  console_log [Str [Chars ("  Limit: " ++ or_null (headers_get (headers response) "Ratelimit-Limit"))]] ;;
  console_log [Str [Chars ("  Remaining: " ++ or_null (headers_get (headers response) "Ratelimit-Remaining"))]] ;;
  console_log [Str [Chars ("  Reset: " ++ or_null (headers_get (headers response) "Ratelimit-Reset"))]] ;;
  console_log [Str [Chars ""]] ;;
  data <- json response ;;
  ret {| res_status := status response; res_data := data |}.

End Script.
End TestApi.

(** ** Shapes of response bodies *)




(** ** Sample inputs *)

Module Sample.

(** A filled-in secrets file. *)
Definition env : environment :=
  {| TWITCH_CLIENT_ID := Some "hof5gwx0su6owfnys0yan9c87zr6t";
     TWITCH_CLIENT_SECRET := Some "41vpdji4e9gif29md0ouet6fktd2";
     TWITCH_ACCESS_TOKEN := Some "rfx2uswqe8l4g1mkagrvg5tv0ks3";
     TWITCH_REFRESH_TOKEN := Some "5b93chm6hdve3mycz05zfzatkfdenfspp1h1ar2xxdalen01";
     TWITCH_USERNAME := None |}.

(** The same file without the two tokens. *)
Definition fresh_env : environment :=
  {| TWITCH_CLIENT_ID := TWITCH_CLIENT_ID env;
     TWITCH_CLIENT_SECRET := TWITCH_CLIENT_SECRET env;
     TWITCH_ACCESS_TOKEN := None;
     TWITCH_REFRESH_TOKEN := None;
     TWITCH_USERNAME := None |}.

(** A network that gives every request the same answer. *)
Definition answer (f : fetched) : network := fun _ => f.

Definition json_response (code : Z) (v : jsval) : response :=
  {| status := code; headers := []; body := Some v |}.

(** The URL of a request for [/callback] with the given query. *)
Definition callback (query : list (string * string)) : URL :=
  {| origin := "http://localhost:3000"; pathname := "/callback";
     searchParams := query |}.

(** A token pair as the identity service grants it. *)
Definition token_pair : jsval :=
  JObj [("access_token", JStr "rfx2uswqe8l4g1mkagrvg5tv0ks3");
        ("expires_in", JNum 14124%float);
        ("refresh_token", JStr "5b93chm6hdve3mycz05zfzatkfdenfspp1h1ar2xxdalen01");
        ("scope", JArr [JStr "moderator:read:followers"; JStr "channel:read:subscriptions"]);
        ("token_type", JStr "bearer")].

(** The error payload for an authorization code that was used before. *)
Definition invalid_code : jsval :=
  JObj [("status", JNum 400%float); ("message", JStr "Invalid authorization code")].

(** A body with an access token field that holds the empty string. *)
Definition blank_token : jsval :=
  JObj [("access_token", JStr ""); ("refresh_token", JStr "")].

(** A token without a refresh token, as the client-credentials grant gives. *)
Definition app_token : jsval :=
  JObj [("access_token", JStr "jostpf5q0uzmxmkba9iyug38kjtgh");
        ("expires_in", JNum 5011271%float);
        ("token_type", JStr "bearer")].

(** The metadata of a valid user token. *)
Definition token_info : jsval :=
  JObj [("client_id", JStr "hof5gwx0su6owfnys0yan9c87zr6t");
        ("login", JStr "twitchdev");
        ("scopes", JArr [JStr "moderator:read:followers"]);
        ("user_id", JStr "141981764");
        ("expires_in", JNum 5520838%float)].


End Sample.

(** ** More of the platform: numbers and strings *)

(** Three conversions of the language that the model takes as given:
    [Number.prototype.toString], [JSON.stringify(v, null, 2)] and the
    reading of a string as a number (StringToNumber, [NaN] when it is not a
    numeric literal). *)
Record platform : Type := mkPlatform {
  number_to_string : float -> string;
  json_stringify : jsval -> string;
  string_to_number : string -> float
}.

(** The string a text stands for. *)
Fixpoint flat (P : platform) (t : text) : string :=
  match t with
  | [] => ""
  | Chars s :: rest => s ++ flat P rest
  | NumText n :: rest => number_to_string P n ++ flat P rest
  | JsonText v :: rest => json_stringify P v ++ flat P rest
  end.

(** What [v?.length] evaluates to: a count of elements or characters for an
    array or a string, the own property [length] for an object, and
    [undefined] for everything else ([null] and [undefined] included, thanks
    to the [?.]). *)
Inductive extent : Type :=
| Count (n : nat)
| Other (v : jsval).

Definition length_of (v : jsval) : extent :=
  match v with
  | JArr items => Count (List.length items)
  | JStr s => Count (String.length s)
  | JObj _ => Other (field v "length")
  | _ => Other JUndefined
  end.

(** [v > 0] for a JSON value: ToPrimitive with hint number, then ToNumber.
    [undefined] is [NaN], [null] is [0], [true] is [1]; a string is read as
    a number; an array goes through [toString]; a plain object gives
    "[object Object]", which is [NaN], unless an own [toString] property
    leaves no usable method. *)
Definition value_gt0 (P : platform) (v : jsval) : M bool :=
  match v with
  | JUndefined | JNull => ret false
  | JBool b => ret b
  | JNum n => ret (PrimFloat.ltb 0 n)
  | JStr s => ret (PrimFloat.ltb 0 (string_to_number P s))
  | JArr _ =>
      match to_string v with
      | Some t => ret (PrimFloat.ltb 0 (string_to_number P (flat P t)))
      | None => throw TypeError
      end
  | JObj props =>
      match own_prop props "toString" with
      | Some _ => throw TypeError
      | None => ret false
      end
  end.

(** [v?.length > 0] *)
Definition has_items (P : platform) (v : jsval) : M bool :=
  match length_of v with
  | Count n => ret (0 <? n)%nat
  | Other x => value_gt0 P x
  end.

(** [v[0]]: the first element of an array, the first character of a string,
    the own property ["0"] of an object. *)
Definition first (v : jsval) : M jsval :=
  match v with
  | JUndefined | JNull => throw TypeError
  | JArr items => ret (match items with x :: _ => x | [] => JUndefined end)
  | JStr s => ret (match s with String c _ => JStr (String c "") | EmptyString => JUndefined end)
  | _ => ret (field v "0")
  end.

(** [v.slice(0, n)] as the receiver of [forEach]: only an array has both
    methods. *)
Definition call_slice (v : jsval) (n : nat) : M (list jsval) :=
  match v with
  | JArr items => ret (firstn n items)
  | _ => throw TypeError
  end.

(** [items.forEach(f)] *)
Fixpoint for_each (items : list jsval) (f : jsval -> M unit) : M unit :=
  match items with
  | [] => ret tt
  | x :: rest => f x ;; for_each rest f
  end.

(** [v || d] inside a template. *)
Definition or_value (v d : jsval) : jsval := if truthy v then v else d.

(** [process.argv[2] || 'help'] *)
Definition command_of (argv2 : option string) : string :=
  if present argv2 then or_undefined argv2 else "help".

(** ** auth.js: the client-credentials grant and the command line *)

Module AuthMain.
Section Script.

Variable env : environment.

Definition client_request : request :=
  {| req_method := "POST";
     req_url := "https://id.twitch.tv/oauth2/token";
     req_headers := [("Content-Type", "application/x-www-form-urlencoded")];
     req_form := [("client_id", or_undefined (Auth.CLIENT_ID env));
                  ("client_secret", or_undefined (Auth.CLIENT_SECRET env));
                  ("grant_type", "client_credentials")] |}.

Definition getClientCredentialsToken : M jsval :=
  console_log [Str [Chars ("Getting app access token (client credentials flow)..." ++ nl)]] ;;
  response <- fetch client_request ;;
  data <- json response ;;
  access_token <- get data "access_token" ;;
  if truthy access_token then
    console_log [Str [Chars "Success! App access token obtained."]] ;;
    head <- call_substring access_token 10 ;;
    console_log [Str (Chars "Token: " :: head ++ [Chars "..."])%list] ;;
    expires_in <- get data "expires_in" ;;
    line <- template [Lit "Expires in: "; Sub expires_in; Lit " seconds"] ;;
    console_log [Str line] ;;
    console_log [Str [Chars (nl ++ "Note: App tokens can only get PUBLIC data (total follower count).")]] ;;
    console_log [Str [Chars "For detailed data, use user auth: node auth.js user"]] ;;
    ret data
  else
    console_error [Str [Chars "Failed:"]; Val data] ;;
    ret JNull.

Definition usage : M unit :=
  console_log [Str [Chars "Twitch OAuth Authentication"]] ;;
  console_log [Str [Chars ("============================" ++ nl)]] ;;
  console_log [Str [Chars "Commands:"]] ;;
  console_log [Str [Chars "  node auth.js client   - Get app access token (limited data)"]] ;;
  console_log [Str [Chars "  node auth.js user     - Start user auth flow (full data)"]] ;;
  console_log [Str [Chars "  node auth.js validate - Check if current token is valid"]] ;;
  console_log [Str [Chars "  node auth.js refresh  - Refresh expired user token"]] ;;
  console_log [Str [Chars (nl ++ "First, fill in ~/twitch-secrets/.env with your Client ID and Secret")]] ;;
  console_log [Str [Chars "from https://dev.twitch.tv/console/apps"]].

(** The body of the module: the [switch] on the command. *)
Definition main (argv2 : option string) : M unit :=
  let command := command_of argv2 in
  if String.eqb command "client" then _ <- getClientCredentialsToken ;; ret tt
  else if String.eqb command "user" then
    Auth.startUserAuthFlow env Auth.REDIRECT_URI Auth.scope_list
  else if String.eqb command "validate" then _ <- Auth.validateToken env ;; ret tt
  else if String.eqb command "refresh" then _ <- Auth.refreshToken env ;; ret tt
  else usage.

End Script.
End AuthMain.

(** ** test-api.js: the three probes and the command line *)

Module Probe.
Section Script.

Variable env : environment.
Variable P : platform.

Definition USERNAME : string :=
  if present (TWITCH_USERNAME env) then or_undefined (TWITCH_USERNAME env)
  else "devopsphilosopher".

Definition getUser : M jsval :=
  console_log [Str [Chars ("=== GET USER INFO ===" ++ nl)]] ;;
  result <- TestApi.apiCall env ("/users?login=" ++ USERNAME) ;;
  items <- get (TestApi.res_data result) "data" ;;
  found <- has_items P items ;;
  if found then
    user <- first items ;;
    console_log [Str [Chars "User found:"]] ;;
    id <- get user "id" ;;
    line <- template [Lit "  ID: "; Sub id] ;;
    console_log [Str line] ;;
    login <- get user "login" ;;
    line <- template [Lit "  Login: "; Sub login] ;;
    console_log [Str line] ;;
    display_name <- get user "display_name" ;;
    line <- template [Lit "  Display Name: "; Sub display_name] ;;
    console_log [Str line] ;;
    type <- get user "type" ;;
    line <- template [Lit "  Type: "; Sub (or_value type (JStr "normal"))] ;;
    console_log [Str line] ;;
    broadcaster_type <- get user "broadcaster_type" ;;
    line <- template [Lit "  Broadcaster Type: ";
                      Sub (or_value broadcaster_type (JStr "none"))] ;;
    console_log [Str line] ;;
    created_at <- get user "created_at" ;;
    line <- template [Lit "  Created: "; Sub created_at] ;;
    console_log [Str line] ;;
    ret user
  else
    console_log [Str [Chars "User not found"]] ;;
    ret JNull.

(** The callback of [forEach] in [getFollowers]. *)
Definition print_follower (f : jsval) : M unit :=
  user_name <- get f "user_name" ;;
  followed_at <- get f "followed_at" ;;
  line <- template [Lit "  - "; Sub user_name; Lit " (followed: "; Sub followed_at; Lit ")"] ;;
  console_log [Str line].

Definition getFollowers (broadcasterId : jsval) : M jsval :=
  console_log [Str [Chars (nl ++ "=== GET FOLLOWERS ===" ++ nl)]] ;;
  endpoint <- template [Lit "/channels/followers?broadcaster_id="; Sub broadcasterId] ;;
  result <- TestApi.apiCall env (flat P endpoint) ;;
  total <- get (TestApi.res_data result) "total" ;;
  line <- template [Lit "Total followers: "; Sub total] ;;
  console_log [Str line] ;;
  items <- get (TestApi.res_data result) "data" ;;
  some <- has_items P items ;;
  (if some then
     console_log [Str [Chars (nl ++ "Recent followers:")]] ;;
     recent <- call_slice items 5 ;;
     for_each recent print_follower
   else ret tt) ;;
  ret total.

Definition getStream (userId : jsval) : M jsval :=
  console_log [Str [Chars (nl ++ "=== GET STREAM STATUS ===" ++ nl)]] ;;
  endpoint <- template [Lit "/streams?user_id="; Sub userId] ;;
  result <- TestApi.apiCall env (flat P endpoint) ;;
  items <- get (TestApi.res_data result) "data" ;;
  live <- has_items P items ;;
  if live then
    stream <- first items ;;
    console_log [Str [Chars "LIVE!"]] ;;
    title <- get stream "title" ;;
    line <- template [Lit "  Title: "; Sub title] ;;
    console_log [Str line] ;;
    game_name <- get stream "game_name" ;;
    line <- template [Lit "  Game: "; Sub game_name] ;;
    console_log [Str line] ;;
    viewer_count <- get stream "viewer_count" ;;
    line <- template [Lit "  Viewers: "; Sub viewer_count] ;;
    console_log [Str line] ;;
    started_at <- get stream "started_at" ;;
    line <- template [Lit "  Started: "; Sub started_at] ;;
    console_log [Str line] ;;
    ret stream
  else
    console_log [Str [Chars "Not currently live"]] ;;
    ret JNull.

Definition usage : M unit :=
  console_log [Str [Chars "Twitch API Test Client"]] ;;
  console_log [Str [Chars ("======================" ++ nl)]] ;;
  console_log [Str [Chars "Commands:"]] ;;
  console_log [Str [Chars "  node test-api.js user       - Get user info"]] ;;
  console_log [Str [Chars "  node test-api.js followers  - Get follower count"]] ;;
  console_log [Str [Chars "  node test-api.js stream     - Check if live"]] ;;
  console_log [Str [Chars "  node test-api.js all        - Run all tests"]] ;;
  console_log [Str [Chars (nl ++ "Make sure you have a valid token: node auth.js validate")]].

(** The body of the module.  [process.exit(1)] does not return: nothing of
    the [switch] runs after it. *)
Definition main (argv2 : option string) : M unit :=
  let command := command_of argv2 in
  if negb (present (TestApi.ACCESS_TOKEN env)) then
    console_log [Str [Chars "No TWITCH_ACCESS_TOKEN found in ~/twitch-secrets/.env"]] ;;
    console_log [Str [Chars "Run: node auth.js  (for auth options)"]] ;;
    emit (ProcessExit 1)
  else if String.eqb command "user" then _ <- getUser ;; ret tt
  else if String.eqb command "followers" then
    user <- getUser ;;
    if truthy user then id <- get user "id" ;; _ <- getFollowers id ;; ret tt
    else ret tt
  else if String.eqb command "stream" then
    user <- getUser ;;
    if truthy user then id <- get user "id" ;; _ <- getStream id ;; ret tt
    else ret tt
  else if String.eqb command "all" then
    user <- getUser ;;
    (if truthy user then
       id <- get user "id" ;; _ <- getFollowers id ;;
       id <- get user "id" ;; _ <- getStream id ;; ret tt
     else ret tt) ;;
    console_log [Str [Chars (nl ++ "=== SUMMARY ===")]] ;;
    console_log [Str [Chars "All endpoints tested. See rate limits above."]]
  else usage.

End Script.
End Probe.

(** ** Counting effects *)

(** How many effects of a trace satisfy [p]. *)
Definition occurrences (p : effect -> bool) (t : trace) : nat :=
  List.length (filter p t).

(** However the network answers, the computation performs at most [n]
    effects that satisfy [p]. *)
Definition at_most (p : effect -> bool) (n : nat) {A} (c : M A) : Prop :=
  forall net, (occurrences p (fst (c net)) <= n)%nat.

Definition is_fetch (e : effect) : bool :=
  match e with Fetch _ => true | _ => false end.

Definition is_log (e : effect) : bool :=
  match e with ConsoleLog _ | ConsoleError _ => true | _ => false end.

Definition is_head (e : effect) : bool :=
  match e with WriteHead _ _ => true | _ => false end.

Definition is_end (e : effect) : bool :=
  match e with End _ => true | _ => false end.

(** The computation either throws without exiting, or returns having set
    the shutdown timer of the listener as its last effect, the first that
    exits. *)
Definition shutdown_last {A} (c : M A) : Prop :=
  forall net,
    (occurrences exits (fst (c net)) = 0%nat /\ exists e, snd (c net) = Threw e)
    \/ (exists t, fst (c net) = (t ++ [SetTimeout AuthServer.shutdown 1000])%list
                  /\ occurrences exits t = 0%nat
                  /\ exists a, snd (c net) = Returned a).

(** A [data] field without elements: absent, [null], an empty array or an
    empty string, a number or a boolean.  (For an object the answer depends
    on its own [length] property.) *)
Definition no_items (v : jsval) : bool :=
  match v with
  | JUndefined | JNull | JBool _ | JNum _ => true
  | JStr s => String.eqb s ""
  | JArr items => match items with [] => true | _ => false end
  | JObj _ => false
  end.

(** All the named fields of [v] convert to strings. *)
Definition printable_fields (v : jsval) (names : list string) : bool :=
  forallb (fun k => printable (field v k)) names.

(** ** More sample inputs *)

Module Fixture.

(** Stand-ins for the three conversions; the sample bodies below hold no
    number and no object where one would be converted. *)
Definition conversions : platform :=
  {| number_to_string := fun _ => "NaN";
     json_stringify := fun _ => "null";
     string_to_number := fun _ => PrimFloat.nan |}.

(** A network that is down. *)
Definition down : network := fun _ => Rejected.

(** An answer that is not JSON: the error page of a gateway. *)
Definition bad_gateway : response :=
  {| status := 502; headers := [("content-type", "text/html")]; body := None |}.

(** The error payload for a token that is not accepted. *)
Definition unauthorized : response :=
  {| status := 401; headers := [];
     body := Some (JObj [("error", JStr "Unauthorized"); ("status", JNum 401%float);
                         ("message", JStr "Invalid OAuth token")]) |}.

Definition user : jsval :=
  JObj [("id", JStr "141981764"); ("login", JStr "twitchdev");
        ("display_name", JStr "TwitchDev"); ("type", JStr "");
        ("broadcaster_type", JStr "partner");
        ("created_at", JStr "2016-12-14T20:32:28Z")].

Definition users : response :=
  {| status := 200; headers := [("ratelimit-limit", "800")];
     body := Some (JObj [("data", JArr [user])]) |}.

Definition nobody : response :=
  {| status := 200; headers := []; body := Some (JObj [("data", JArr [])]) |}.

Definition follower (name : string) : jsval :=
  JObj [("user_id", JStr "11111"); ("user_name", JStr name);
        ("followed_at", JStr "2022-05-24T22:22:08Z")].

Definition followers : response :=
  {| status := 200; headers := [];
     body := Some (JObj [("total", JStr "7");
                         ("data", JArr [follower "a"; follower "b"; follower "c";
                                        follower "d"; follower "e"; follower "f";
                                        follower "g"])]) |}.

Definition offline_stream : response :=
  {| status := 200; headers := []; body := Some (JObj [("data", JArr [])]) |}.

(** A token response in which [scope] is one string instead of an array. *)
Definition plain_scope : jsval :=
  JObj [("access_token", JStr "rfx2uswqe8l4g1mkagrvg5tv0ks3");
        ("refresh_token", JStr "5b93chm6hdve3mycz05zfzatkfdenfspp1h1ar2xxdalen01");
        ("scope", JStr "moderator:read:followers")].

(** Helix, answering the three probes for the sample user. *)
Definition helix : network :=
  fun q =>
    if String.eqb (req_url q) "https://api.twitch.tv/helix/users?login=devopsphilosopher"
    then Resolved users
    else if String.eqb (req_url q)
              "https://api.twitch.tv/helix/channels/followers?broadcaster_id=141981764"
    then Resolved followers
    else if String.eqb (req_url q) "https://api.twitch.tv/helix/streams?user_id=141981764"
    then Resolved offline_stream
    else Rejected.

End Fixture.

(** * Properties *)

(** ** Values and text *)

Example to_string_array :
  to_string (JArr [JStr "a"; JNull; JArr [JStr "b"; JStr "c"]])
  = Some [Chars "a"; Chars ","; Chars ","; Chars "b"; Chars ","; Chars "c"].
Proof. reflexivity. Qed.

Example to_string_shadowed :
  to_string (JObj [("toString", JNum 1%float)]) = None.
Proof. reflexivity. Qed.

(** ** Running a computation *)

Lemma run_emit {A} (e : effect) (k : M A) (net : network) :
  (emit e ;; k) net = after [e] (k net).
Proof. unfold bind, emit, after. destruct (k net). reflexivity. Qed.

Lemma run_ret {A B} (a : A) (k : A -> M B) (net : network) :
  (x <- ret a ;; k x) net = k a net.
Proof. unfold bind, ret. destruct (k a net). reflexivity. Qed.

Lemma run_throw {A B} (e : exn) (k : A -> M B) (net : network) :
  (x <- throw e ;; k x) net = ([], Threw e).
Proof. reflexivity. Qed.

Lemma run_fetch {A} (q : request) (r : response) (k : response -> M A) (net : network) :
  net q = Resolved r ->
  (x <- fetch q ;; k x) net = after [Fetch q] (k r net).
Proof. intros H. unfold bind, fetch, after. rewrite H. destruct (k r net). reflexivity. Qed.

Lemma run_fetch_rejected {A} (q : request) (k : response -> M A) (net : network) :
  net q = Rejected ->
  (x <- fetch q ;; k x) net = ([Fetch q], Threw FetchFailed).
Proof. intros H. unfold bind, fetch. rewrite H. reflexivity. Qed.

Lemma run_assoc {A B C} (c : M A) (f : A -> M B) (g : B -> M C) (net : network) :
  (y <- (x <- c ;; f x) ;; g y) net = (x <- c ;; y <- f x ;; g y) net.
Proof.
  unfold bind. destruct (c net) as [t1 [a|e]]; [|reflexivity].
  destruct (f a net) as [t2 [b|e]]; [|reflexivity].
  destruct (g b net) as [t3 r]. now rewrite app_assoc.
Qed.

Lemma run_last (e : effect) (net : network) : emit e net = ([e], Returned tt).
Proof. reflexivity. Qed.

Lemma run_done {A} (a : A) (net : network) : ret a net = ([], Returned a).
Proof. reflexivity. Qed.

(** One step of a run: the effect, fetch or value at the head of the
    computation is performed. *)
Ltac step :=
  first [ rewrite run_emit | rewrite run_ret | rewrite run_throw
        | rewrite run_assoc | rewrite run_last | rewrite run_done ].

Ltac run :=
  unfold console_log, console_error, writeHead, end_, setTimeout;
  cbv beta iota; repeat (step; cbv beta iota).

(** ** The callback listener *)

Section Listener.

Variable env : environment.

(** The handler on a callback whose [code] and [error] are both missing or
    empty: it does nothing at all. *)
Lemma handler_idle (url : URL) (net : network) :
  pathname url = "/callback" ->
  present (params_get (searchParams url) "error") = false ->
  present (params_get (searchParams url) "code") = false ->
  AuthServer.handler env url net = ([], Returned tt).
Proof.
  intros Hp He Hc. unfold AuthServer.handler.
  rewrite Hp, He, Hc. reflexivity.
Qed.

(** The handler on a callback with a non-empty [error]. *)
Lemma handler_denied (url : URL) (net : network) :
  pathname url = "/callback" ->
  present (params_get (searchParams url) "error") = true ->
  AuthServer.handler env url net =
  ([WriteHead 400 AuthServer.html;
    End [Chars "<h1>Authorization Failed</h1><p>Error: ";
         Chars (or_null (params_get (searchParams url) "error")); Chars "</p>"];
    ConsoleLog [Str [Chars (nl ++ "Authorization denied by user")]]],
   Returned tt).
Proof.
  intros Hp He. unfold AuthServer.handler.
  rewrite Hp, He. reflexivity.
Qed.

(** The handler off the callback path. *)
Lemma handler_elsewhere (url : URL) (net : network) :
  pathname url <> "/callback" ->
  AuthServer.handler env url net =
  ([WriteHead 200 AuthServer.plain;
    End [Chars ("Twitch OAuth Callback Server" ++ nl ++ "Waiting for authorization...")]],
   Returned tt).
Proof.
  intros Hp. unfold AuthServer.handler.
  apply String.eqb_neq in Hp. rewrite Hp. reflexivity.
Qed.

End Listener.

Lemma run_template {A} (ps : list part) (t : text) (k : text -> M A) (net : network) :
  parts_text ps = Some t ->
  (x <- template ps ;; k x) net = k t net.
Proof.
  revert t k. induction ps as [|[s|v] rest IH]; intros t k H; cbn [template parts_text] in H |- *.
  - injection H as <-. now rewrite run_ret.
  - destruct (parts_text rest) as [t'|]; [|discriminate]. injection H as <-.
    rewrite run_assoc, (IH t') by reflexivity. now rewrite run_ret.
  - destruct (to_string v) as [tv|]; [|discriminate].
    destruct (parts_text rest) as [t'|]; [|discriminate]. injection H as <-.
    rewrite run_assoc, (IH t') by reflexivity. now rewrite run_ret.
Qed.

Lemma printable_text (v : jsval) :
  printable v = true -> to_string v = Some (text_of v).
Proof. unfold printable, text_of. now destruct (to_string v). Qed.

Lemma joinable_text (v : jsval) :
  joinable v = true ->
  exists items, v = JArr items /\ join ", " items = Some (joined v).
Proof.
  destruct v; try discriminate. cbn. intros H. exists items.
  now destruct (join ", " items).
Qed.

Section Exchange.

Variable env : environment.
Variable url : URL.
Variable net : network.
Variable r : response.
Variable tokens : jsval.

Hypothesis on_callback : pathname url = "/callback".
Hypothesis no_error : present (params_get (searchParams url) "error") = false.
Hypothesis has_code : present (params_get (searchParams url) "code") = true.
Hypothesis answered :
  net (AuthServer.token_request env (params_get (searchParams url) "code")) = Resolved r.
Hypothesis parsed : body r = Some tokens.

(** The exchange gave no usable access token: the payload goes back in a 500
    page. *)
Lemma handler_failed :
  nullish tokens = false ->
  truthy (field tokens "access_token") = false ->
  AuthServer.handler env url net =
  ([ConsoleLog [Str [Chars (nl ++ "Received authorization code, exchanging for token...")]];
    Fetch (AuthServer.token_request env (params_get (searchParams url) "code"));
    WriteHead 500 AuthServer.html;
    End [Chars "<h1>Token Exchange Failed</h1><pre>"; JsonText tokens; Chars "</pre>"];
    ConsoleError [Str [Chars "Token exchange failed:"]; Val tokens]],
   Returned tt).
Proof.
  intros Hn Ha. unfold AuthServer.handler.
  rewrite on_callback, no_error, has_code. cbn [String.eqb Ascii.eqb Bool.eqb].
  unfold AuthServer.exchangeCodeForToken. run.
  rewrite (run_fetch _ r) by exact answered.
  unfold json, get. rewrite parsed. run. rewrite Hn. run. rewrite Ha. run.
  reflexivity.
Qed.

(** The exchange gave an access token. *)
Lemma handler_succeeded :
  truthy (field tokens "access_token") = true ->
  printable (field tokens "access_token") = true ->
  printable (field tokens "refresh_token") = true ->
  printable (field tokens "expires_in") = true ->
  nullish (field tokens "scope") || joinable (field tokens "scope") = true ->
  AuthServer.handler env url net =
  ([ConsoleLog [Str [Chars (nl ++ "Received authorization code, exchanging for token...")]];
    Fetch (AuthServer.token_request env (params_get (searchParams url) "code"));
    WriteHead 200 AuthServer.html;
    End [Chars AuthServer.success_page];
    ConsoleLog [Str [Chars (nl ++ AuthServer.rule)]];
    ConsoleLog [Str [Chars "SUCCESS! Update ~/twitch-secrets/.env:"]];
    ConsoleLog [Str [Chars (AuthServer.rule ++ nl)]];
    ConsoleLog [Str (Chars "TWITCH_ACCESS_TOKEN=" :: text_of (field tokens "access_token"))];
    ConsoleLog [Str (Chars "TWITCH_REFRESH_TOKEN=" :: text_of (field tokens "refresh_token"))];
    ConsoleLog [Str [Chars (nl ++ AuthServer.rule)]];
    ConsoleLog [Str (Chars "Token expires in: "
                       :: text_of (field tokens "expires_in") ++ [Chars " seconds"])%list];
    ConsoleLog [Str [Chars "Scopes:"]; Str (scopes_line (field tokens "scope"))];
    ConsoleLog [Str [Chars (AuthServer.rule ++ nl)]];
    SetTimeout AuthServer.shutdown 1000],
   Returned tt).
Proof.
  intros Ha Pa Pr Pe Hs.
  assert (Hn : nullish tokens = false) by (destruct tokens; try reflexivity; discriminate).
  apply printable_text in Pa, Pr, Pe.
  unfold AuthServer.handler.
  rewrite on_callback, no_error, has_code. cbn [String.eqb Ascii.eqb Bool.eqb].
  unfold AuthServer.exchangeCodeForToken. run.
  rewrite (run_fetch _ r) by exact answered.
  unfold json, get. rewrite parsed. run. rewrite Hn. run. rewrite Ha. run.
  rewrite (run_template _ (Chars "TWITCH_ACCESS_TOKEN=" :: text_of (field tokens "access_token")))
    by (cbn; now rewrite Pa, app_nil_r).
  run.
  rewrite (run_template _ (Chars "TWITCH_REFRESH_TOKEN=" :: text_of (field tokens "refresh_token")))
    by (cbn; now rewrite Pr, app_nil_r).
  run.
  rewrite (run_template _ (Chars "Token expires in: "
                             :: text_of (field tokens "expires_in") ++ [Chars " seconds"])%list)
    by (cbn; now rewrite Pe).
  run. unfold scopes_line.
  destruct (nullish (field tokens "scope")) eqn:Hnull.
  - run. reflexivity.
  - cbn in Hs. apply joinable_text in Hs as (items & -> & Hj).
    unfold call_join. rewrite Hj. run. reflexivity.
Qed.

End Exchange.

Section ListenerClaims.

Variable env : environment.

(** C1, as amended.  On a request for [/callback] whose [error] parameter
    has a non-empty value, the listener answers with status 400 and an HTML
    page that quotes the error, makes no request to the token endpoint, and
    goes on running: the handler returns and nothing exits the process. *)
Theorem error_callback_rejected (url : URL) (net : network) (e : string) :
  pathname url = "/callback" ->
  params_get (searchParams url) "error" = Some e ->
  e <> "" ->
  let run := AuthServer.handler env url net in
  statuses (fst run) = [400] /\
  fst run = [WriteHead 400 [("Content-Type", "text/html")];
             End [Chars "<h1>Authorization Failed</h1><p>Error: "; Chars e; Chars "</p>"];
             ConsoleLog [Str [Chars (nl ++ "Authorization denied by user")]]] /\
  fetches (fst run) = 0%nat /\
  keeps_running run.
Proof.
  intros Hp He Hne run. subst run.
  rewrite handler_denied; [|exact Hp|].
  - rewrite He. cbn. repeat split; try reflexivity. now exists tt.
  - rewrite He. cbn. apply String.eqb_neq in Hne. now rewrite Hne.
Qed.

(** C2, as amended.  On a request for [/callback] with a non-empty [code]
    and no non-empty [error], when the body of the token response is JSON
    with a truthy [access_token], with [access_token], [refresh_token] and
    [expires_in] that convert to strings and with a [scope] that is absent,
    [null] or an array of such values, the listener answers with status 200
    and the confirmation page, prints both tokens to the console and sets a
    timer of 1000 ms whose callback exits the process. *)
Theorem code_callback_success (url : URL) (net : network) (r : response) (tokens : jsval) :
  pathname url = "/callback" ->
  present (params_get (searchParams url) "error") = false ->
  present (params_get (searchParams url) "code") = true ->
  net (AuthServer.token_request env (params_get (searchParams url) "code")) = Resolved r ->
  body r = Some tokens ->
  truthy (field tokens "access_token") = true ->
  printable (field tokens "access_token") = true ->
  printable (field tokens "refresh_token") = true ->
  printable (field tokens "expires_in") = true ->
  nullish (field tokens "scope") || joinable (field tokens "scope") = true ->
  let run := AuthServer.handler env url net in
  statuses (fst run) = [200] /\
  pages (fst run) = [[Chars AuthServer.success_page]] /\
  In (ConsoleLog [Str (Chars "TWITCH_ACCESS_TOKEN=" :: text_of (field tokens "access_token"))])
     (fst run) /\
  In (ConsoleLog [Str (Chars "TWITCH_REFRESH_TOKEN=" :: text_of (field tokens "refresh_token"))])
     (fst run) /\
  (exists before,
     fst run = before ++ [SetTimeout [ConsoleLog [Str [Chars "Shutting down server..."]];
                                      ProcessExit 0] 1000]
     /\ existsb exits before = false)%list /\
  exit_delay (fst run) = Some 1000 /\
  snd run = Returned tt.
Proof.
  intros Hp He Hc Hnet Hb Ha Pa Pr Pe Hs run. subst run.
  rewrite (handler_succeeded env url net r tokens) by assumption.
  cbn [fst snd statuses pages exit_delay exits existsb AuthServer.shutdown orb].
  repeat split; cbn [In]; auto 12.
  match goal with
  | |- exists before, ?t = _ /\ _ => exists (removelast t)
  end.
  split; reflexivity.
Qed.

(** C3, as amended.  On a request for [/callback] with a non-empty [code]
    and no non-empty [error], when the body of the token response is a JSON
    value other than [null] whose [access_token] is absent or falsy, the
    listener answers with status 500 and a page that holds the payload,
    rendered by [JSON.stringify], and goes on running. *)
Theorem code_callback_failure (url : URL) (net : network) (r : response) (tokens : jsval) :
  pathname url = "/callback" ->
  present (params_get (searchParams url) "error") = false ->
  present (params_get (searchParams url) "code") = true ->
  net (AuthServer.token_request env (params_get (searchParams url) "code")) = Resolved r ->
  body r = Some tokens ->
  nullish tokens = false ->
  truthy (field tokens "access_token") = false ->
  let run := AuthServer.handler env url net in
  statuses (fst run) = [500] /\
  pages (fst run) =
    [[Chars "<h1>Token Exchange Failed</h1><pre>"; JsonText tokens; Chars "</pre>"]] /\
  fetches (fst run) = 1%nat /\
  keeps_running run.
Proof.
  intros Hp He Hc Hnet Hb Hn Ha run. subst run.
  rewrite (handler_failed env url net r tokens) by assumption.
  cbn. repeat split. now exists tt.
Qed.


(** C10.  On a request for [/callback] with neither a [code] nor an [error]
    parameter the handler performs no effect: no status line and no body is
    written to the response, and the listener goes on running. *)
Theorem callback_without_parameters (url : URL) (net : network) :
  pathname url = "/callback" ->
  params_get (searchParams url) "code" = None ->
  params_get (searchParams url) "error" = None ->
  let run := AuthServer.handler env url net in
  fst run = [] /\
  statuses (fst run) = [] /\
  pages (fst run) = [] /\
  keeps_running run.
Proof.
  intros Hp Hc He run. subst run.
  rewrite handler_idle; [|exact Hp|now rewrite He|now rewrite Hc].
  cbn. repeat split. now exists tt.
Qed.

End ListenerClaims.

(** A denied authorization: [/callback?error=access_denied]. *)
Lemma error_callback_rejected_witness :
  let url := Sample.callback [("error", "access_denied")] in
  let run := AuthServer.handler Sample.env url (Sample.answer Rejected) in
  statuses (fst run) = [400] /\
  fst run = [WriteHead 400 [("Content-Type", "text/html")];
             End [Chars "<h1>Authorization Failed</h1><p>Error: ";
                  Chars "access_denied"; Chars "</p>"];
             ConsoleLog [Str [Chars (nl ++ "Authorization denied by user")]]] /\
  fetches (fst run) = 0%nat /\
  keeps_running run.
Proof.
  apply (error_callback_rejected Sample.env
           (Sample.callback [("error", "access_denied")]) (Sample.answer Rejected)
           "access_denied"); [reflexivity | reflexivity | discriminate].
Defined.

(** C1 fails as stated: a query that holds an [error] parameter with an
    empty value gets no response at all, and with a [code] beside it the
    exchange is made. *)
Lemma error_callback_empty_value :
  let url := Sample.callback [("error", "")] in
  let url' := Sample.callback [("error", ""); ("code", "gulfwdmys5lsm6qyz4xiz9q32l10")] in
  let granted := Sample.answer (Resolved (Sample.json_response 200 Sample.token_pair)) in
  params_get (searchParams url) "error" = Some "" /\
  AuthServer.handler Sample.env url granted = ([], Returned tt) /\
  params_get (searchParams url') "error" = Some "" /\
  statuses (fst (AuthServer.handler Sample.env url' granted)) = [200] /\
  fetches (fst (AuthServer.handler Sample.env url' granted)) = 1%nat.
Proof. repeat split. Qed.

(** A granted authorization: the code is exchanged for the sample token
    pair. *)
Lemma code_callback_success_witness :
  let url := Sample.callback [("code", "gulfwdmys5lsm6qyz4xiz9q32l10")] in
  let net := Sample.answer (Resolved (Sample.json_response 200 Sample.token_pair)) in
  let run := AuthServer.handler Sample.env url net in
  statuses (fst run) = [200] /\
  pages (fst run) = [[Chars AuthServer.success_page]] /\
  In (ConsoleLog [Str [Chars "TWITCH_ACCESS_TOKEN="; Chars "rfx2uswqe8l4g1mkagrvg5tv0ks3"]])
     (fst run) /\
  In (ConsoleLog [Str [Chars "TWITCH_REFRESH_TOKEN=";
                       Chars "5b93chm6hdve3mycz05zfzatkfdenfspp1h1ar2xxdalen01"]])
     (fst run) /\
  (exists before,
     fst run = before ++ [SetTimeout [ConsoleLog [Str [Chars "Shutting down server..."]];
                                      ProcessExit 0] 1000]
     /\ existsb exits before = false)%list /\
  exit_delay (fst run) = Some 1000 /\
  snd run = Returned tt.
Proof.
  apply (code_callback_success Sample.env
           (Sample.callback [("code", "gulfwdmys5lsm6qyz4xiz9q32l10")])
           (Sample.answer (Resolved (Sample.json_response 200 Sample.token_pair)))
           (Sample.json_response 200 Sample.token_pair) Sample.token_pair);
    reflexivity.
Defined.

(** C2 fails as stated: a body whose access token field holds the empty
    string is answered with status 500 and no exit is scheduled; a [code]
    that comes with an [error] is answered with status 400 without an
    exchange; an empty [code] gets no response. *)
Lemma code_callback_blank_token :
  let code := ("code", "gulfwdmys5lsm6qyz4xiz9q32l10") in
  let blank := Sample.answer (Resolved (Sample.json_response 200 Sample.blank_token)) in
  let granted := Sample.answer (Resolved (Sample.json_response 200 Sample.token_pair)) in
  own_prop [("access_token", JStr ""); ("refresh_token", JStr "")] "access_token"
    = Some (JStr "") /\
  statuses (fst (AuthServer.handler Sample.env (Sample.callback [code]) blank)) = [500] /\
  exit_delay (fst (AuthServer.handler Sample.env (Sample.callback [code]) blank)) = None /\
  statuses (fst (AuthServer.handler Sample.env
                   (Sample.callback [code; ("error", "access_denied")]) granted)) = [400] /\
  fetches (fst (AuthServer.handler Sample.env
                  (Sample.callback [code; ("error", "access_denied")]) granted)) = 0%nat /\
  AuthServer.handler Sample.env (Sample.callback [("code", "")]) granted = ([], Returned tt).
Proof. repeat split. Qed.

(** A code that was used before: the identity service refuses it. *)
Lemma code_callback_failure_witness :
  let url := Sample.callback [("code", "gulfwdmys5lsm6qyz4xiz9q32l10")] in
  let net := Sample.answer (Resolved (Sample.json_response 400 Sample.invalid_code)) in
  let run := AuthServer.handler Sample.env url net in
  statuses (fst run) = [500] /\
  pages (fst run) =
    [[Chars "<h1>Token Exchange Failed</h1><pre>"; JsonText Sample.invalid_code;
      Chars "</pre>"]] /\
  fetches (fst run) = 1%nat /\
  keeps_running run.
Proof.
  apply (code_callback_failure Sample.env
           (Sample.callback [("code", "gulfwdmys5lsm6qyz4xiz9q32l10")])
           (Sample.answer (Resolved (Sample.json_response 400 Sample.invalid_code)))
           (Sample.json_response 400 Sample.invalid_code) Sample.invalid_code);
    reflexivity.
Defined.

(** C3 fails as stated: with an empty [code] no exchange is made and no
    response is written; with an [error] beside the [code] the answer is
    status 400; and a token response whose body is JSON [null] makes the
    handler throw before it writes anything. *)
Lemma code_callback_no_500 :
  let code := ("code", "gulfwdmys5lsm6qyz4xiz9q32l10") in
  let refused := Sample.answer (Resolved (Sample.json_response 400 Sample.invalid_code)) in
  let null := Sample.answer (Resolved (Sample.json_response 400 JNull)) in
  AuthServer.handler Sample.env (Sample.callback [("code", "")]) refused = ([], Returned tt) /\
  statuses (fst (AuthServer.handler Sample.env
                   (Sample.callback [code; ("error", "access_denied")]) refused)) = [400] /\
  statuses (fst (AuthServer.handler Sample.env (Sample.callback [code]) null)) = [] /\
  snd (AuthServer.handler Sample.env (Sample.callback [code]) null) = Threw TypeError.
Proof. repeat split. Qed.


(** A callback that carries only a [state]. *)
Lemma callback_without_parameters_witness :
  let url := Sample.callback [("state", "c3ab8aa609ea11e793ae92361f002671")] in
  let run := AuthServer.handler Sample.env url (Sample.answer Rejected) in
  fst run = [] /\
  statuses (fst run) = [] /\
  pages (fst run) = [] /\
  keeps_running run.
Proof.
  apply (callback_without_parameters Sample.env
           (Sample.callback [("state", "c3ab8aa609ea11e793ae92361f002671")])
           (Sample.answer Rejected)); reflexivity.
Defined.

(** ** The token clients *)

Section TokenClients.

Variable env : environment.
Variable net : network.


Lemma refresh_unconfigured :
  present (TWITCH_REFRESH_TOKEN env) = false ->
  Auth.refreshToken env net =
  ([ConsoleLog [Str [Chars "No TWITCH_REFRESH_TOKEN found in ~/twitch-secrets/.env"]];
    ConsoleLog [Str [Chars "Run: node auth.js user  (to get a new token)"]]],
   Returned JNull).
Proof.
  intros H. unfold Auth.refreshToken. rewrite H. reflexivity.
Qed.

Variable r : response.
Variable data : jsval.

Hypothesis configured : present (TWITCH_REFRESH_TOKEN env) = true.
Hypothesis answered :
  net (Auth.refresh_request env (TWITCH_REFRESH_TOKEN env)) = Resolved r.
Hypothesis parsed : body r = Some data.
Hypothesis not_null : nullish data = false.



End TokenClients.



(** The refresh client on the sample token pair. *)
Example refresh_granted :
  let net := Sample.answer (Resolved (Sample.json_response 200 Sample.token_pair)) in
  snd (Auth.refreshToken Sample.env net) = Returned Sample.token_pair /\
  In (ConsoleLog [Str [Chars "New access token: "; Chars "rfx2uswqe8"; Chars "..."]])
     (fst (Auth.refreshToken Sample.env net)) /\
  In (ConsoleLog [Str [Chars "TWITCH_REFRESH_TOKEN=";
                       Chars "5b93chm6hdve3mycz05zfzatkfdenfspp1h1ar2xxdalen01"]])
     (fst (Auth.refreshToken Sample.env net)).
Proof. cbn. auto 12. Qed.

(** The refresh client on a refused refresh token. *)
Example refresh_refused :
  let payload := JObj [("status", JNum 400%float); ("message", JStr "Invalid refresh token")] in
  Auth.refreshToken Sample.env (Sample.answer (Resolved (Sample.json_response 400 payload)))
  = ([ConsoleLog [Str [Chars ("Refreshing access token..." ++ nl)]];
      Fetch (Auth.refresh_request Sample.env (TWITCH_REFRESH_TOKEN Sample.env));
      ConsoleError [Str [Chars "Refresh failed:"]; Val payload]],
     Returned JNull).
Proof. reflexivity. Qed.


(** C5.  Without a refresh token in the environment (unset, or set to the
    empty string) the refresh operation prints that [TWITCH_REFRESH_TOKEN]
    is missing, returns [null] and sends no request. *)
Theorem refresh_without_token (env : environment) (net : network) :
  present (TWITCH_REFRESH_TOKEN env) = false ->
  let run := Auth.refreshToken env net in
  snd run = Returned JNull /\
  fst run =
    [ConsoleLog [Str [Chars "No TWITCH_REFRESH_TOKEN found in ~/twitch-secrets/.env"]];
     ConsoleLog [Str [Chars "Run: node auth.js user  (to get a new token)"]]] /\
  fetches (fst run) = 0%nat.
Proof.
  intros H run. subst run. rewrite refresh_unconfigured by exact H.
  repeat split.
Qed.

(** A refresh with the secrets file as it is before the first authorization. *)
Lemma refresh_without_token_witness :
  let run := Auth.refreshToken Sample.fresh_env
               (Sample.answer (Resolved (Sample.json_response 200 Sample.token_pair))) in
  snd run = Returned JNull /\
  fst run =
    [ConsoleLog [Str [Chars "No TWITCH_REFRESH_TOKEN found in ~/twitch-secrets/.env"]];
     ConsoleLog [Str [Chars "Run: node auth.js user  (to get a new token)"]]] /\
  fetches (fst run) = 0%nat.
Proof.
  apply (refresh_without_token Sample.fresh_env
           (Sample.answer (Resolved (Sample.json_response 200 Sample.token_pair)))).
  reflexivity.
Defined.

(** ** The token validator *)

Section Validator.

Variable env : environment.
Variable net : network.
Variable r : response.

Hypothesis configured : present (TWITCH_ACCESS_TOKEN env) = true.
Hypothesis answered :
  net (Auth.validate_request (TWITCH_ACCESS_TOKEN env)) = Resolved r.



End Validator.



(** ** The Helix probe *)

Section Probe.

Variable env : environment.
Variable endpoint : string.
Variable net : network.


Lemma apiCall_answered (r : response) (data : jsval) :
  net (TestApi.api_request env endpoint) = Resolved r ->
  body r = Some data ->
  TestApi.apiCall env endpoint net =
  ([ConsoleLog [Str [Chars ("GET " ++ TestApi.API_BASE ++ endpoint ++ nl)]];
    Fetch (TestApi.api_request env endpoint);
    ConsoleLog [Str [Chars "Rate Limit Info:"]];
    ConsoleLog [Str [Chars ("  Limit: " ++ or_null (headers_get (headers r) "Ratelimit-Limit"))]];
    ConsoleLog [Str [Chars ("  Remaining: "
                              ++ or_null (headers_get (headers r) "Ratelimit-Remaining"))]];
    ConsoleLog [Str [Chars ("  Reset: " ++ or_null (headers_get (headers r) "Ratelimit-Reset"))]];
    ConsoleLog [Str [Chars ""]]],
   Returned {| TestApi.res_status := status r; TestApi.res_data := data |}).
Proof.
  intros Hnet Hb. unfold TestApi.apiCall. run.
  rewrite (run_fetch _ r) by exact Hnet. run.
  unfold json. rewrite Hb. run. reflexivity.
Qed.

End Probe.



(** ** The authorization URL *)

Lemma append_assoc (a b c : string) : ((a ++ b) ++ c = a ++ (b ++ c))%string.
Proof. induction a as [|x a IH]; cbn; [reflexivity|now rewrite IH]. Qed.

Lemma append_empty (a : string) : (a ++ "" = a)%string.
Proof. induction a as [|x a IH]; cbn; [reflexivity|now rewrite IH]. Qed.

Lemma every_append (p : ascii -> bool) (a b : string) :
  every p (a ++ b) = every p a && every p b.
Proof.
  induction a as [|x a IH]; cbn; [reflexivity|].
  now rewrite IH, andb_assoc.
Qed.

Lemma every_weaken (p q : ascii -> bool) (s : string) :
  (forall c, p c = true -> q c = true) ->
  every p s = true -> every q s = true.
Proof.
  intros Hpq. induction s as [|x s IH]; cbn; [reflexivity|].
  intros H. apply andb_prop in H as [Hx Hs].
  now rewrite (Hpq x Hx), IH.
Qed.

Lemma encode_byte_chars (c : ascii) : every form_char (encode_byte c) = true.
Proof. destruct c as [[] [] [] [] [] [] [] []]; reflexivity. Qed.

Lemma form_encode_chars (s : string) : every form_char (form_encode s) = true.
Proof.
  induction s as [|c s IH]; cbn; [reflexivity|].
  now rewrite every_append, encode_byte_chars, IH.
Qed.

Lemma form_char_not (sep : ascii) :
  form_char sep = false ->
  forall c, form_char c = true -> negb (Ascii.eqb c sep) = true.
Proof.
  intros Hsep c Hc. destruct (Ascii.eqb c sep) eqn:E; [|reflexivity].
  apply Ascii.eqb_eq in E. subst c. congruence.
Qed.

Lemma form_encode_without (sep : ascii) (s : string) :
  form_char sep = false ->
  every (fun c => negb (Ascii.eqb c sep)) (form_encode s) = true.
Proof.
  intros Hsep. apply (every_weaken form_char); [|apply form_encode_chars].
  now apply form_char_not.
Qed.

Lemma decode_encode_byte (c : ascii) (t : string) :
  form_decode (encode_byte c ++ t) = option_map (String c) (form_decode t).
Proof. destruct c as [[] [] [] [] [] [] [] []]; reflexivity. Qed.

(** Decoding undoes encoding. *)
Lemma form_decode_encode (s : string) : form_decode (form_encode s) = Some s.
Proof.
  induction s as [|c s IH]; cbn [form_encode]; [reflexivity|].
  now rewrite decode_encode_byte, IH.
Qed.

Section Splitting.

Variable sep : ascii.
Variables a b : string.
Hypothesis clean : every (fun c => negb (Ascii.eqb c sep)) a = true.

Lemma split_all_whole : split_all sep a = [a].
Proof.
  revert clean. induction a as [|x s IH]; cbn; [reflexivity|]. intros H.
  apply andb_prop in H as [Hx Hs]. apply negb_true_iff in Hx.
  now rewrite Hx, IH.
Qed.

Lemma split_all_cut : split_all sep (a ++ String sep b) = a :: split_all sep b.
Proof.
  revert clean. induction a as [|x s IH]; cbn; intros H.
  - now rewrite Ascii.eqb_refl.
  - apply andb_prop in H as [Hx Hs]. apply negb_true_iff in Hx.
    now rewrite Hx, IH.
Qed.

Lemma split_first_cut : split_first sep (a ++ String sep b) = (a, b).
Proof.
  revert clean. induction a as [|x s IH]; cbn; intros H.
  - now rewrite Ascii.eqb_refl.
  - apply andb_prop in H as [Hx Hs]. apply negb_true_iff in Hx.
    now rewrite Hx, IH.
Qed.

End Splitting.

Lemma parse_pair (k v : string) (rest : list string) :
  parse_pieces ((form_encode k ++ String "=" (form_encode v)) :: rest)
  = option_map (cons (k, v)) (parse_pieces rest).
Proof.
  assert (H : forall piece, piece = (form_encode k ++ String "=" (form_encode v))%string ->
              parse_pieces (piece :: rest) = option_map (cons (k, v)) (parse_pieces rest)).
  { intros piece E.
    assert (Hcut : split_first "=" piece = (form_encode k, form_encode v))
      by (rewrite E; apply split_first_cut; now apply form_encode_without).
    destruct piece as [|c piece].
    - destruct (form_encode k); discriminate.
    - cbn [parse_pieces]. rewrite Hcut, !form_decode_encode.
      now destruct (parse_pieces rest). }
  now apply H.
Qed.

(** Reading a serialized query gives back the pairs. *)
Lemma form_parse_serialize (ps : list (string * string)) :
  form_parse (form_serialize ps) = Some ps.
Proof.
  unfold form_parse. induction ps as [|[k v] rest IH]; [reflexivity|].
  cbn [form_serialize]. destruct rest as [|p rest].
  - rewrite append_empty. cbn [append]. rewrite split_all_whole.
    + now rewrite parse_pair.
    + rewrite every_append. cbn [every].
      rewrite !form_encode_without by reflexivity. reflexivity.
  - change ("=" ++ form_encode v ++ "&" ++ form_serialize (p :: rest))%string
      with (String "=" (form_encode v ++ String "&" (form_serialize (p :: rest)))).
    change (form_encode k ++ String "=" (form_encode v ++ String "&" (form_serialize (p :: rest))))%string
      with (form_encode k ++ (String "=" (form_encode v) ++ String "&" (form_serialize (p :: rest))))%string.
    rewrite <- append_assoc, split_all_cut.
    + now rewrite parse_pair, IH.
    + rewrite every_append. cbn [every].
      rewrite !form_encode_without by reflexivity. reflexivity.
Qed.

(** C8.  For every client identifier, redirect URI and list of scopes the
    builder yields a URL on the authorization endpoint whose query
    parameters are exactly [client_id], [redirect_uri], [response_type]
    with the value [code], and [scope] with the scopes joined by single
    spaces.  The printed URL is well formed: reading its query string gives
    back these four parameters.  Building and printing it cannot fail and
    sends no request. *)
Theorem authorization_url (client_id redirect_uri : string) (scopes : list string)
    (secret access refresh user : option string) (net : network) :
  let env := {| TWITCH_CLIENT_ID := Some client_id; TWITCH_CLIENT_SECRET := secret;
                TWITCH_ACCESS_TOKEN := access; TWITCH_REFRESH_TOKEN := refresh;
                TWITCH_USERNAME := user |} in
  let url := Auth.authUrl env redirect_uri scopes in
  let query := [("client_id", client_id); ("redirect_uri", redirect_uri);
                ("response_type", "code"); ("scope", String.concat " " scopes)] in
  origin url ++ pathname url = "https://id.twitch.tv/oauth2/authorize" /\
  searchParams url = query /\
  href url = "https://id.twitch.tv/oauth2/authorize?" ++ form_serialize query /\
  form_parse (form_serialize query) = Some query /\
  Auth.startUserAuthFlow env redirect_uri scopes net =
    ([ConsoleLog [Str [Chars ("Starting user authorization flow..." ++ nl)]];
      ConsoleLog [Str [Chars "Open this URL in your browser:"]];
      ConsoleLog [Str [Chars (href url)]];
      ConsoleLog [Str [Chars (nl ++ "Then run the callback server: node auth-server.js")]];
      ConsoleLog [Str [Chars "After authorizing, you'll get an access token."]]],
     Returned tt).
Proof.
  intros env url query. subst env url query.
  repeat split.
  apply form_parse_serialize.
Qed.

(** The URL the script prints, with its own redirect URI and scopes. *)
Example authorization_url_printed :
  href (Auth.authUrl Sample.env Auth.REDIRECT_URI Auth.scope_list)
  = "https://id.twitch.tv/oauth2/authorize?client_id=hof5gwx0su6owfnys0yan9c87zr6t&redirect_uri=http%3A%2F%2Flocalhost%3A3000%2Fcallback&response_type=code&scope=moderator%3Aread%3Afollowers+channel%3Aread%3Asubscriptions".
Proof. reflexivity. Qed.

(** * More properties *)

(** ** Bounds on what a computation does *)

Section Counting.

Variable p : effect -> bool.

Lemma occurrences_app (t1 t2 : trace) :
  occurrences p (t1 ++ t2)%list = (occurrences p t1 + occurrences p t2)%nat.
Proof. unfold occurrences. now rewrite filter_app, length_app. Qed.

Lemma at_most_le {A} (n m : nat) (c : M A) :
  (n <= m)%nat -> at_most p n c -> at_most p m c.
Proof. intros Hle H net. specialize (H net). lia. Qed.

Lemma at_most_ret {A} (n : nat) (a : A) : at_most p n (ret a).
Proof. intros net. cbn. lia. Qed.

Lemma at_most_throw {A} (n : nat) (e : exn) : at_most p n (@throw A e).
Proof. intros net. cbn. lia. Qed.

Lemma at_most_emit_free (n : nat) (e : effect) :
  p e = false -> at_most p n (emit e).
Proof. intros H net. unfold occurrences. cbn. rewrite H. cbn. lia. Qed.

Lemma at_most_emit (n : nat) (e : effect) : at_most p (S n) (emit e).
Proof. intros net. unfold occurrences. cbn. destruct (p e); cbn; lia. Qed.

Lemma at_most_fetch_free (n : nat) (q : request) :
  p (Fetch q) = false -> at_most p n (fetch q).
Proof. intros H net. unfold occurrences. cbn. rewrite H. cbn. lia. Qed.

Lemma at_most_fetch (n : nat) (q : request) : at_most p (S n) (fetch q).
Proof. intros net. unfold occurrences. cbn. destruct (p (Fetch q)); cbn; lia. Qed.

(** The budgets of a computation and of what follows it add up. *)
Lemma at_most_bind {A B} (n m : nat) (c : M A) (k : A -> M B) :
  at_most p n c -> (forall a, at_most p m (k a)) -> at_most p (n + m) (x <- c ;; k x).
Proof.
  intros Hc Hk net. specialize (Hc net). unfold bind.
  destruct (c net) as [t1 [a|e]]; cbn [fst] in *; [|lia].
  specialize (Hk a net). destruct (k a net) as [t2 r]. cbn [fst] in *.
  rewrite occurrences_app. lia.
Qed.

Lemma at_most_free {A B} (n : nat) (c : M A) (k : A -> M B) :
  at_most p 0 c -> (forall a, at_most p n (k a)) -> at_most p n (x <- c ;; k x).
Proof. intros Hc Hk. now apply (at_most_bind 0 n). Qed.

Lemma at_most_paid {A B} (n : nat) (c : M A) (k : A -> M B) :
  at_most p 1 c -> (forall a, at_most p n (k a)) -> at_most p (S n) (x <- c ;; k x).
Proof. intros Hc Hk. now apply (at_most_bind 1 n). Qed.

Lemma at_most_json (n : nat) (r : response) : at_most p n (json r).
Proof. unfold json. destruct (body r); [apply at_most_ret|apply at_most_throw]. Qed.

Lemma at_most_get (n : nat) (v : jsval) (k : string) : at_most p n (get v k).
Proof. unfold get. destruct (nullish v); [apply at_most_throw|apply at_most_ret]. Qed.

Lemma at_most_template (n : nat) (ps : list part) : at_most p n (template ps).
Proof.
  revert n. induction ps as [|[s|v] rest IH]; intros n; cbn [template].
  - apply at_most_ret.
  - apply at_most_free; [apply IH|]. intros t. apply at_most_ret.
  - destruct (to_string v); [|apply at_most_throw].
    apply at_most_free; [apply IH|]. intros t'. apply at_most_ret.
Qed.

Lemma at_most_call_join (n : nat) (v : jsval) (sep : string) :
  at_most p n (call_join v sep).
Proof.
  destruct v; try apply at_most_throw. cbn.
  destruct (join sep items); [apply at_most_ret|apply at_most_throw].
Qed.

Lemma at_most_call_substring (n : nat) (v : jsval) (m : nat) :
  at_most p n (call_substring v m).
Proof. destruct v; try apply at_most_throw. apply at_most_ret. Qed.

Lemma at_most_call_slice (n : nat) (v : jsval) (m : nat) :
  at_most p n (call_slice v m).
Proof. destruct v; try apply at_most_throw. apply at_most_ret. Qed.

Lemma at_most_first (n : nat) (v : jsval) : at_most p n (first v).
Proof. destruct v; try apply at_most_throw; apply at_most_ret. Qed.

Lemma at_most_has_items (n : nat) (P : platform) (v : jsval) :
  at_most p n (has_items P v).
Proof.
  unfold has_items. destruct (length_of v) as [m|x]; [apply at_most_ret|].
  destruct x; cbn [value_gt0]; try apply at_most_ret.
  - destruct (to_string (JArr items)); [apply at_most_ret|apply at_most_throw].
  - destruct (own_prop props "toString"); [apply at_most_throw|apply at_most_ret].
Qed.

(** A loop spends the budget of its body once for every element. *)
Lemma at_most_for_each (m : nat) (items : list jsval) (f : jsval -> M unit) :
  (forall x, at_most p m (f x)) ->
  at_most p (List.length items * m) (for_each items f).
Proof.
  intros Hf. induction items as [|x rest IH]; cbn [for_each List.length Nat.mul].
  - apply at_most_ret.
  - apply at_most_bind; [apply Hf|]. intros _. exact IH.
Qed.

End Counting.

(** The budget of a composite computation, statement by statement: a step
    that cannot spend is passed for free, any other is paid for with one
    unit. *)
Ltac tally :=
  unfold console_log, console_error, writeHead, end_, setTimeout;
  repeat first
    [ apply at_most_ret
    | apply at_most_throw
    | apply at_most_emit_free; reflexivity
    | apply at_most_fetch_free; reflexivity
    | apply at_most_json
    | apply at_most_get
    | apply at_most_template
    | apply at_most_call_join
    | apply at_most_call_substring
    | apply at_most_call_slice
    | apply at_most_first
    | apply at_most_has_items
    | apply at_most_free; [solve [tally] | intros ?]
    | apply at_most_paid; [solve [tally] | intros ?]
    | apply at_most_emit
    | apply at_most_fetch
    | match goal with
      | |- at_most _ _ (if ?b then _ else _) => destruct b
      | |- at_most _ _ (match ?x with _ => _ end) => destruct x
      end ].

(** ** The callback listener, on every request *)

Lemma fetches_occurrences (t : trace) : fetches t = occurrences is_fetch t.
Proof.
  unfold occurrences. induction t as [|e t IH]; [reflexivity|].
  destruct e; cbn; now rewrite IH.
Qed.

Lemma statuses_occurrences (t : trace) :
  List.length (statuses t) = occurrences is_head t.
Proof.
  unfold occurrences. induction t as [|e t IH]; [reflexivity|].
  destruct e; cbn; now rewrite IH.
Qed.

Lemma pages_occurrences (t : trace) :
  List.length (pages t) = occurrences is_end t.
Proof.
  unfold occurrences. induction t as [|e t IH]; [reflexivity|].
  destruct e; cbn; now rewrite IH.
Qed.

Lemma exits_occurrences (t : trace) :
  occurrences exits t = 0%nat -> existsb exits t = false.
Proof.
  unfold occurrences. induction t as [|e t IH]; [reflexivity|].
  cbn. destruct (exits e); cbn; [discriminate|exact IH].
Qed.

Lemma occurrences_after {A} (p : effect -> bool) (t : trace) (r : trace * outcome A) :
  occurrences p (fst (after t r)) = (occurrences p t + occurrences p (fst r))%nat.
Proof. unfold after. cbn [fst]. apply occurrences_app. Qed.

Lemma after_after {A} (t1 t2 : trace) (r : trace * outcome A) :
  after t1 (after t2 r) = after (t1 ++ t2)%list r.
Proof. unfold after. cbn [fst snd]. now rewrite app_assoc. Qed.

Lemma at_most_none {A} (p : effect -> bool) (c : M A) (net : network) :
  at_most p 0 c -> occurrences p (fst (c net)) = 0%nat.
Proof. intros H. specialize (H net). lia. Qed.

Lemma get_defined (v : jsval) (k : string) :
  nullish v = false -> get v k = ret (field v k).
Proof. intros H. unfold get. now rewrite H. Qed.

Lemma get_missing (v : jsval) (k : string) :
  nullish v = true -> get v k = throw TypeError.
Proof. intros H. unfold get. now rewrite H. Qed.

Lemma run_fetch_cases {A} (q : request) (k : response -> M A) (net : network) :
  (x <- fetch q ;; k x) net =
  match net q with
  | Rejected => ([Fetch q], Threw FetchFailed)
  | Resolved r => after [Fetch q] (k r net)
  end.
Proof.
  destruct (net q) as [|r] eqn:H.
  - now apply run_fetch_rejected.
  - now apply run_fetch.
Qed.

Lemma run_template_cases {A} (ps : list part) (k : text -> M A) (net : network) :
  (x <- template ps ;; k x) net =
  match parts_text ps with
  | Some t => k t net
  | None => ([], Threw TypeError)
  end.
Proof.
  destruct (parts_text ps) as [t|] eqn:H; [now apply run_template|].
  revert k H. induction ps as [|[s|v] rest IH]; intros k H; cbn [template parts_text] in H |- *.
  - discriminate.
  - destruct (parts_text rest); [discriminate|].
    rewrite run_assoc. now apply IH.
  - destruct (to_string v) as [tv|]; [|reflexivity].
    destruct (parts_text rest); [discriminate|].
    rewrite run_assoc. now apply IH.
Qed.



Lemma shutdown_last_free {A B} (c : M A) (k : A -> M B) :
  at_most exits 0 c -> (forall a, shutdown_last (k a)) -> shutdown_last (x <- c ;; k x).
Proof.
  intros Hc Hk net. pose proof (at_most_none exits c net Hc) as H0. unfold bind.
  destruct (c net) as [t1 [a|e]]; cbn [fst snd] in *.
  - destruct (Hk a net) as [[Hz [e He]]|(t & Ht & Hz & b & Hb)];
      destruct (k a net) as [t2 r]; cbn [fst snd] in *.
    + left. split; [|now exists e]. rewrite occurrences_app. lia.
    + right. exists (t1 ++ t)%list. subst t2. rewrite app_assoc.
      split; [reflexivity|]. split; [|now exists b]. rewrite occurrences_app. lia.
  - left. split; [exact H0|now exists e].
Qed.

Lemma shutdown_last_timer :
  shutdown_last (setTimeout AuthServer.shutdown 1000).
Proof. intros net. right. exists []. repeat split. now exists tt. Qed.

Section EveryRequest.

Variable env : environment.
Variable url : URL.
Variable net : network.

(** The condition under which the handler reaches the exchange. *)
Let exchanging : bool :=
  String.eqb (pathname url) "/callback"
  && negb (present (params_get (searchParams url) "error"))
  && present (params_get (searchParams url) "code").

Lemma handler_cases :
  (exchanging = false /\
   (AuthServer.handler env url net = ([], Returned tt)
    \/ (exists page, AuthServer.handler env url net
                     = ([WriteHead 400 AuthServer.html; End page;
                         ConsoleLog [Str [Chars (nl ++ "Authorization denied by user")]]],
                        Returned tt))
    \/ (exists page, AuthServer.handler env url net
                     = ([WriteHead 200 AuthServer.plain; End page], Returned tt))))
  \/ (exchanging = true /\
      pathname url = "/callback" /\
      present (params_get (searchParams url) "error") = false /\
      present (params_get (searchParams url) "code") = true).
Proof.
  unfold exchanging.
  destruct (String.eqb (pathname url) "/callback") eqn:Hp.
  - apply String.eqb_eq in Hp.
    destruct (present (params_get (searchParams url) "error")) eqn:He.
    + left. split; [reflexivity|]. right. left. eexists.
      now apply handler_denied.
    + destruct (present (params_get (searchParams url) "code")) eqn:Hc.
      * right. repeat split; assumption.
      * left. split; [reflexivity|]. left. now apply handler_idle.
  - apply String.eqb_neq in Hp. left. split; [reflexivity|]. right. right. eexists.
    now apply handler_elsewhere.
Qed.

(** X1.  The token endpoint is called exactly when the request is for
    [/callback], has no non-empty [error] and has a non-empty [code]; it is
    then called once, whatever it answers. *)
Theorem exchange_attempted_exactly_when :
  fetches (fst (AuthServer.handler env url net)) =
  if String.eqb (pathname url) "/callback"
     && negb (present (params_get (searchParams url) "error"))
     && present (params_get (searchParams url) "code")
  then 1%nat else 0%nat.
Proof.
  destruct handler_cases as [[Hx [H|[[page H]|[page H]]]]|(Hx & Hp & He & Hc)];
    fold exchanging; rewrite Hx; try (rewrite H; reflexivity).
  unfold AuthServer.handler.
  rewrite Hp, He, Hc. cbn [String.eqb Ascii.eqb Bool.eqb].
  unfold AuthServer.exchangeCodeForToken. run.
  rewrite fetches_occurrences, occurrences_after, run_fetch_cases.
  destruct (net _) as [|r]; [reflexivity|].
  rewrite occurrences_after.
  match goal with
  | |- context [occurrences is_fetch (fst (?rest net))] =>
      rewrite (at_most_none is_fetch rest net) by tally
  end.
  reflexivity.
Qed.


(** The handler at the exchange, up to the test of the access token. *)
Lemma handler_exchanging :
  pathname url = "/callback" ->
  present (params_get (searchParams url) "error") = false ->
  present (params_get (searchParams url) "code") = true ->
  let q := AuthServer.token_request env (params_get (searchParams url) "code") in
  let waiting := ConsoleLog [Str [Chars (nl ++ "Received authorization code, exchanging for token...")]] in
  (net q = Rejected /\
   AuthServer.handler env url net = ([waiting; Fetch q], Threw FetchFailed))
  \/ (exists r, net q = Resolved r /\ body r = None /\
                AuthServer.handler env url net = ([waiting; Fetch q], Threw SyntaxError))
  \/ (exists r tokens, net q = Resolved r /\ body r = Some tokens /\ nullish tokens = true /\
                       AuthServer.handler env url net = ([waiting; Fetch q], Threw TypeError))
  \/ (exists r tokens, net q = Resolved r /\ body r = Some tokens /\ nullish tokens = false /\
                       truthy (field tokens "access_token") = false /\
                       AuthServer.handler env url net =
                       ([waiting; Fetch q; WriteHead 500 AuthServer.html;
                         End [Chars "<h1>Token Exchange Failed</h1><pre>"; JsonText tokens;
                              Chars "</pre>"];
                         ConsoleError [Str [Chars "Token exchange failed:"]; Val tokens]],
                        Returned tt))
  \/ (exists r tokens (rest : M unit),
         net q = Resolved r /\ body r = Some tokens /\ nullish tokens = false /\
         truthy (field tokens "access_token") = true /\
         at_most is_head 0 rest /\ at_most is_end 0 rest /\ at_most is_fetch 0 rest /\
         shutdown_last rest /\
         AuthServer.handler env url net =
         after [waiting; Fetch q; WriteHead 200 AuthServer.html;
                End [Chars AuthServer.success_page]] (rest net)).
Proof.
  intros Hp He Hc q waiting. subst q waiting.
  unfold AuthServer.handler.
  rewrite Hp, He, Hc. cbn [String.eqb Ascii.eqb Bool.eqb].
  unfold AuthServer.exchangeCodeForToken. run.
  rewrite run_fetch_cases.
  destruct (net _) as [|r] eqn:Hnet; [left; now split|right].
  unfold json. destruct (body r) as [tokens|] eqn:Hb.
  2:{ left. exists r. repeat split; try assumption; reflexivity. }
  right. run.
  destruct (nullish tokens) eqn:Hn.
  { left. exists r, tokens. repeat split; try assumption.
    rewrite (get_missing tokens) by exact Hn. reflexivity. }
  right. rewrite (get_defined tokens "access_token") by exact Hn. run.
  destruct (truthy (field tokens "access_token")) eqn:Ha.
  2:{ left. exists r, tokens. repeat split; try assumption; run; reflexivity. }
  right. cbv iota. unfold writeHead, end_. rewrite 2!run_emit, !after_after.
  match goal with
  | |- context [after _ (?rest net)] => exists r, tokens, rest
  end.
  repeat split; try assumption; try (tally; fail).
  rewrite !(get_defined tokens) by exact Hn.
  repeat (apply shutdown_last_free; [solve [tally]|intros ?]).
  apply shutdown_last_timer.
Qed.

(** X2.  Whatever the request and whatever the network does, the handler
    writes at most one response, and it never writes a status line without
    a body or a body without a status line. *)
Theorem handler_single_response :
  let t := fst (AuthServer.handler env url net) in
  (List.length (statuses t) <= 1)%nat /\
  List.length (pages t) = List.length (statuses t).
Proof.
  intros t. subst t.
  destruct handler_cases as [[_ [H|[[page H]|[page H]]]]|(_ & Hp & He & Hc)];
    try (rewrite H; cbn; split; [lia|reflexivity]).
  destruct (handler_exchanging Hp He Hc)
    as [[_ H]|[(r & _ & _ & H)|[(r & tokens & _ & _ & _ & H)
       |[(r & tokens & _ & _ & _ & _ & H)|(r & tokens & rest & _ & _ & _ & _ & Hh & He' & _ & _ & H)]]]];
    rewrite H; try (cbn; split; [lia|reflexivity]).
  rewrite statuses_occurrences, pages_occurrences, !occurrences_after.
  rewrite (at_most_none is_head rest net Hh), (at_most_none is_end rest net He').
  cbn. split; [lia|reflexivity].
Qed.


End EveryRequest.

Section ExchangeOutcome.

Variable env : environment.
Variable url : URL.
Variable net : network.

Hypothesis on_callback : pathname url = "/callback".
Hypothesis no_error : present (params_get (searchParams url) "error") = false.
Hypothesis has_code : present (params_get (searchParams url) "code") = true.

(** X4.  Once the exchange has answered with a JSON value other than
    [null], the access token alone decides the response: status 200 with the
    confirmation page when it is truthy, status 500 with the payload when it
    is not.  The response is written before any field is printed, so no
    other field of the body can change or prevent it. *)
Theorem response_decided_by_access_token (r : response) (tokens : jsval) :
  net (AuthServer.token_request env (params_get (searchParams url) "code")) = Resolved r ->
  body r = Some tokens ->
  nullish tokens = false ->
  let t := fst (AuthServer.handler env url net) in
  statuses t = [if truthy (field tokens "access_token") then 200 else 500] /\
  pages t = [if truthy (field tokens "access_token")
             then [Chars AuthServer.success_page]
             else [Chars "<h1>Token Exchange Failed</h1><pre>"; JsonText tokens;
                   Chars "</pre>"]].
Proof.
  intros Hnet Hb Hn t. subst t.
  destruct (handler_exchanging env url net on_callback no_error has_code)
    as [[H _]|[(r' & H & Hb' & _)|[(r' & tokens' & H & Hb' & Hn' & _)
       |[(r' & tokens' & H & Hb' & _ & Ha & Hrun)
        |(r' & tokens' & rest & H & Hb' & _ & Ha & Hh & He & _ & _ & Hrun)]]]];
    rewrite Hnet in H; try discriminate; injection H as <-;
    rewrite Hb in Hb'; try discriminate; injection Hb' as <-.
  - congruence.
  - rewrite Hrun, Ha. split; reflexivity.
  - rewrite Hrun, Ha.
    pose proof (at_most_none is_head rest net Hh) as H1.
    pose proof (at_most_none is_end rest net He) as H2.
    rewrite <- statuses_occurrences in H1. rewrite <- pages_occurrences in H2.
    apply length_zero_iff_nil in H1, H2.
    unfold after. cbn [fst app statuses pages]. now rewrite H1, H2.
Qed.

(** X5.  When the token endpoint cannot be reached, or answers with a body
    that is not JSON, the handler throws after the one request: it writes no
    status line and no body, so the browser is left waiting, and it
    schedules no exit. *)
Theorem exchange_unanswered :
  let q := AuthServer.token_request env (params_get (searchParams url) "code") in
  net q = Rejected \/ (exists r, net q = Resolved r /\ body r = None) ->
  let run := AuthServer.handler env url net in
  fst run = [ConsoleLog [Str [Chars (nl ++ "Received authorization code, exchanging for token...")]];
             Fetch q] /\
  (snd run = Threw FetchFailed \/ snd run = Threw SyntaxError) /\
  statuses (fst run) = [] /\ pages (fst run) = [] /\ exit_delay (fst run) = None.
Proof.
  intros q Hq run. subst q run.
  destruct (handler_exchanging env url net on_callback no_error has_code)
    as [[H Hrun]|[(r' & H & Hb' & Hrun)|[(r' & tokens' & H & Hb' & _)
       |[(r' & tokens' & H & Hb' & _)|(r' & tokens' & rest & H & Hb' & _)]]]];
    try (rewrite Hrun; cbn; repeat split; auto; fail);
    destruct Hq as [Hq|(r & Hq & Hb)]; rewrite Hq in H; try discriminate;
    injection H as <-; rewrite Hb in Hb'; discriminate.
Qed.

End ExchangeOutcome.

(** With [scope] as one string the page still says success. *)
Lemma response_decided_by_access_token_witness :
  let tokens := Fixture.plain_scope in
  let url := Sample.callback [("code", "gulfwdmys5lsm6qyz4xiz9q32l10")] in
  let t := fst (AuthServer.handler Sample.env url
                  (Sample.answer (Resolved (Sample.json_response 200 tokens)))) in
  statuses t = [if truthy (field tokens "access_token") then 200 else 500] /\
  pages t = [if truthy (field tokens "access_token")
             then [Chars AuthServer.success_page]
             else [Chars "<h1>Token Exchange Failed</h1><pre>"; JsonText tokens;
                   Chars "</pre>"]].
Proof.
  apply (response_decided_by_access_token Sample.env
           (Sample.callback [("code", "gulfwdmys5lsm6qyz4xiz9q32l10")])
           (Sample.answer (Resolved (Sample.json_response 200 Fixture.plain_scope)))
           eq_refl eq_refl eq_refl
           (Sample.json_response 200 Fixture.plain_scope) Fixture.plain_scope);
    reflexivity.
Defined.

(** What the handler does on that response: the tokens are printed, then the
    join of the scopes throws and no shutdown is scheduled. *)
Example plain_scope_no_shutdown :
  let run := AuthServer.handler Sample.env
               (Sample.callback [("code", "gulfwdmys5lsm6qyz4xiz9q32l10")])
               (Sample.answer (Resolved (Sample.json_response 200 Fixture.plain_scope))) in
  snd run = Threw TypeError /\ exit_delay (fst run) = None /\ statuses (fst run) = [200].
Proof. repeat split. Qed.

(** The identity service cannot be reached. *)
Lemma exchange_unanswered_witness :
  let url := Sample.callback [("code", "gulfwdmys5lsm6qyz4xiz9q32l10")] in
  let q := AuthServer.token_request Sample.env (Some "gulfwdmys5lsm6qyz4xiz9q32l10") in
  let run := AuthServer.handler Sample.env url Fixture.down in
  fst run = [ConsoleLog [Str [Chars (nl ++ "Received authorization code, exchanging for token...")]];
             Fetch q] /\
  (snd run = Threw FetchFailed \/ snd run = Threw SyntaxError) /\
  statuses (fst run) = [] /\ pages (fst run) = [] /\ exit_delay (fst run) = None.
Proof.
  apply (exchange_unanswered Sample.env
           (Sample.callback [("code", "gulfwdmys5lsm6qyz4xiz9q32l10")]) Fixture.down
           eq_refl eq_refl eq_refl).
  left. reflexivity.
Defined.

(** ** auth.js, the rest *)

(** X6.  Without an access token in the environment (unset, or set to the
    empty string) the validator prints that [TWITCH_ACCESS_TOKEN] is
    missing, returns [null] and sends no request. *)
Theorem validate_without_token (env : environment) (net : network) :
  present (TWITCH_ACCESS_TOKEN env) = false ->
  let run := Auth.validateToken env net in
  snd run = Returned JNull /\
  fst run = [ConsoleLog [Str [Chars "No TWITCH_ACCESS_TOKEN found in ~/twitch-secrets/.env"]]] /\
  fetches (fst run) = 0%nat.
Proof.
  intros H run. subst run. unfold Auth.validateToken. rewrite H. repeat split.
Qed.

Lemma validate_without_token_witness :
  let run := Auth.validateToken Sample.fresh_env
               (Sample.answer (Resolved (Sample.json_response 200 Sample.token_info))) in
  snd run = Returned JNull /\
  fst run = [ConsoleLog [Str [Chars "No TWITCH_ACCESS_TOKEN found in ~/twitch-secrets/.env"]]] /\
  fetches (fst run) = 0%nat.
Proof.
  apply (validate_without_token Sample.fresh_env
           (Sample.answer (Resolved (Sample.json_response 200 Sample.token_info)))).
  reflexivity.
Defined.

Section ClientCredentials.

Variable env : environment.
Variable net : network.
Variable r : response.
Variable data : jsval.

Hypothesis answered : net (AuthMain.client_request env) = Resolved r.
Hypothesis parsed : body r = Some data.
Hypothesis not_null : nullish data = false.

(** X7.  When the body of the token response has no truthy [access_token],
    the client-credentials grant prints the raw body as the failure and
    returns [null], whatever the status of the response was. *)
Theorem client_credentials_refused :
  truthy (field data "access_token") = false ->
  AuthMain.getClientCredentialsToken env net =
  ([ConsoleLog [Str [Chars ("Getting app access token (client credentials flow)..." ++ nl)]];
    Fetch (AuthMain.client_request env);
    ConsoleError [Str [Chars "Failed:"]; Val data]],
   Returned JNull).
Proof.
  intros Ha. unfold AuthMain.getClientCredentialsToken. run.
  rewrite (run_fetch _ r) by exact answered.
  unfold json. rewrite parsed. run.
  rewrite (get_defined data) by exact not_null. run. rewrite Ha. run.
  reflexivity.
Qed.

(** X8.  When the [access_token] is a non-empty string and [expires_in]
    converts to a string, the grant returns the parsed body, and of the
    token it prints the first ten characters only. *)
Theorem client_credentials_granted (token : string) :
  field data "access_token" = JStr token ->
  token <> "" ->
  printable (field data "expires_in") = true ->
  AuthMain.getClientCredentialsToken env net =
  ([ConsoleLog [Str [Chars ("Getting app access token (client credentials flow)..." ++ nl)]];
    Fetch (AuthMain.client_request env);
    ConsoleLog [Str [Chars "Success! App access token obtained."]];
    ConsoleLog [Str [Chars "Token: "; Chars (substring 0 10 token); Chars "..."]];
    ConsoleLog [Str (Chars "Expires in: "
                       :: text_of (field data "expires_in") ++ [Chars " seconds"])%list];
    ConsoleLog [Str [Chars (nl ++ "Note: App tokens can only get PUBLIC data (total follower count).")]];
    ConsoleLog [Str [Chars "For detailed data, use user auth: node auth.js user"]]],
   Returned data).
Proof.
  intros Ha Hne Pe. apply printable_text in Pe.
  unfold AuthMain.getClientCredentialsToken. run.
  rewrite (run_fetch _ r) by exact answered.
  unfold json. rewrite parsed. run.
  rewrite !(get_defined data) by exact not_null. run. rewrite Ha.
  apply String.eqb_neq in Hne. cbn [truthy]. rewrite Hne. cbn [negb].
  unfold call_substring. run.
  rewrite (run_template _ (Chars "Expires in: "
                             :: text_of (field data "expires_in") ++ [Chars " seconds"])%list)
    by (cbn; now rewrite Pe).
  run. reflexivity.
Qed.

End ClientCredentials.

(** A client secret that the identity service does not know. *)
Lemma client_credentials_refused_witness :
  let payload := JObj [("status", JNum 403%float); ("message", JStr "invalid client secret")] in
  AuthMain.getClientCredentialsToken Sample.env
    (Sample.answer (Resolved (Sample.json_response 403 payload))) =
  ([ConsoleLog [Str [Chars ("Getting app access token (client credentials flow)..." ++ nl)]];
    Fetch (AuthMain.client_request Sample.env);
    ConsoleError [Str [Chars "Failed:"]; Val payload]],
   Returned JNull).
Proof.
  apply (client_credentials_refused Sample.env
           (Sample.answer (Resolved (Sample.json_response 403
              (JObj [("status", JNum 403%float); ("message", JStr "invalid client secret")]))))
           (Sample.json_response 403
              (JObj [("status", JNum 403%float); ("message", JStr "invalid client secret")]))
           _ eq_refl eq_refl eq_refl eq_refl).
Defined.

(** The sample app token: twenty-nine characters, ten of them printed. *)
Lemma client_credentials_granted_witness :
  AuthMain.getClientCredentialsToken Sample.env
    (Sample.answer (Resolved (Sample.json_response 200 Sample.app_token))) =
  ([ConsoleLog [Str [Chars ("Getting app access token (client credentials flow)..." ++ nl)]];
    Fetch (AuthMain.client_request Sample.env);
    ConsoleLog [Str [Chars "Success! App access token obtained."]];
    ConsoleLog [Str [Chars "Token: ";
                     Chars (substring 0 10 "jostpf5q0uzmxmkba9iyug38kjtgh"); Chars "..."]];
    ConsoleLog [Str (Chars "Expires in: "
                       :: text_of (field Sample.app_token "expires_in")
                          ++ [Chars " seconds"])%list];
    ConsoleLog [Str [Chars (nl ++ "Note: App tokens can only get PUBLIC data (total follower count).")]];
    ConsoleLog [Str [Chars "For detailed data, use user auth: node auth.js user"]]],
   Returned Sample.app_token).
Proof.
  apply (client_credentials_granted Sample.env
           (Sample.answer (Resolved (Sample.json_response 200 Sample.app_token)))
           (Sample.json_response 200 Sample.app_token) Sample.app_token
           eq_refl eq_refl eq_refl "jostpf5q0uzmxmkba9iyug38kjtgh" eq_refl);
    [discriminate | reflexivity].
Defined.

(** X9.  A command other than [client], [validate] and [refresh] (so [user],
    no command at all, or anything else) sends no request and returns,
    whatever the environment holds. *)
Theorem auth_main_offline (env : environment) (argv2 : option string) (net : network) :
  command_of argv2 <> "client" ->
  command_of argv2 <> "validate" ->
  command_of argv2 <> "refresh" ->
  let run := AuthMain.main env argv2 net in
  fetches (fst run) = 0%nat /\ snd run = Returned tt.
Proof.
  intros Hc Hv Hr run. subst run. unfold AuthMain.main.
  apply String.eqb_neq in Hc, Hv, Hr. rewrite Hc, Hv, Hr.
  destruct (String.eqb (command_of argv2) "user"); split; reflexivity.
Qed.

Lemma auth_main_offline_witness :
  let run := AuthMain.main Sample.fresh_env (Some "usre") (Sample.answer Rejected) in
  fetches (fst run) = 0%nat /\ snd run = Returned tt.
Proof.
  apply (auth_main_offline Sample.fresh_env (Some "usre") (Sample.answer Rejected));
    discriminate.
Defined.

(** X10.  No command of auth.js retries or waits: for every command, every
    environment and every behaviour of the network, a run sends at most one
    request, sets no timer that exits and never exits the process. *)
Theorem auth_main_bounded (env : environment) (argv2 : option string) (net : network) :
  let t := fst (AuthMain.main env argv2 net) in
  (fetches t <= 1)%nat /\ existsb exits t = false.
Proof.
  intros t. subst t. split.
  - rewrite fetches_occurrences. revert net.
    change (at_most is_fetch 1 (AuthMain.main env argv2)).
    unfold AuthMain.main, AuthMain.getClientCredentialsToken, AuthMain.usage,
      Auth.startUserAuthFlow, Auth.validateToken, Auth.refreshToken.
    tally.
  - apply exits_occurrences. apply at_most_none.
    unfold AuthMain.main, AuthMain.getClientCredentialsToken, AuthMain.usage,
      Auth.startUserAuthFlow, Auth.validateToken, Auth.refreshToken.
    tally.
Qed.

(** X11.  When the network is down, each of the three functions that call
    the identity service throws after its one request; none of them prints
    a failure or returns [null]. *)
Theorem auth_transport_failure (env : environment) (net : network) :
  (forall q, net q = Rejected) ->
  present (TWITCH_ACCESS_TOKEN env) = true ->
  present (TWITCH_REFRESH_TOKEN env) = true ->
  AuthMain.getClientCredentialsToken env net =
    ([ConsoleLog [Str [Chars ("Getting app access token (client credentials flow)..." ++ nl)]];
      Fetch (AuthMain.client_request env)], Threw FetchFailed) /\
  Auth.validateToken env net =
    ([ConsoleLog [Str [Chars ("Validating access token..." ++ nl)]];
      Fetch (Auth.validate_request (TWITCH_ACCESS_TOKEN env))], Threw FetchFailed) /\
  Auth.refreshToken env net =
    ([ConsoleLog [Str [Chars ("Refreshing access token..." ++ nl)]];
      Fetch (Auth.refresh_request env (TWITCH_REFRESH_TOKEN env))], Threw FetchFailed).
Proof.
  intros Hdown Ha Hr. repeat split.
  - unfold AuthMain.getClientCredentialsToken. run.
    now rewrite run_fetch_rejected by apply Hdown.
  - unfold Auth.validateToken. rewrite Ha. cbn [negb]. run.
    now rewrite run_fetch_rejected by apply Hdown.
  - unfold Auth.refreshToken. rewrite Hr. cbn [negb]. run.
    now rewrite run_fetch_rejected by apply Hdown.
Qed.

Lemma auth_transport_failure_witness :
  AuthMain.getClientCredentialsToken Sample.env Fixture.down =
    ([ConsoleLog [Str [Chars ("Getting app access token (client credentials flow)..." ++ nl)]];
      Fetch (AuthMain.client_request Sample.env)], Threw FetchFailed) /\
  Auth.validateToken Sample.env Fixture.down =
    ([ConsoleLog [Str [Chars ("Validating access token..." ++ nl)]];
      Fetch (Auth.validate_request (TWITCH_ACCESS_TOKEN Sample.env))], Threw FetchFailed) /\
  Auth.refreshToken Sample.env Fixture.down =
    ([ConsoleLog [Str [Chars ("Refreshing access token..." ++ nl)]];
      Fetch (Auth.refresh_request Sample.env (TWITCH_REFRESH_TOKEN Sample.env))],
     Threw FetchFailed).
Proof.
  apply (auth_transport_failure Sample.env Fixture.down); reflexivity.
Defined.

(** X12.  When the answer is not JSON, the two token clients of auth.js
    throw on reading it, whatever the status; the validator throws on a 2xx
    answer and, on any other status, still returns [null] since it does not
    read the body. *)
Theorem auth_body_not_json (env : environment) (net : network) (r : response) :
  (forall q, net q = Resolved r) ->
  body r = None ->
  present (TWITCH_ACCESS_TOKEN env) = true ->
  present (TWITCH_REFRESH_TOKEN env) = true ->
  snd (AuthMain.getClientCredentialsToken env net) = Threw SyntaxError /\
  snd (Auth.refreshToken env net) = Threw SyntaxError /\
  snd (Auth.validateToken env net) = if ok r then Threw SyntaxError else Returned JNull.
Proof.
  intros Hnet Hb Ha Hr. repeat split.
  - unfold AuthMain.getClientCredentialsToken. run.
    rewrite (run_fetch _ r) by apply Hnet. unfold json. rewrite Hb. reflexivity.
  - unfold Auth.refreshToken. rewrite Hr. cbn [negb]. run.
    rewrite (run_fetch _ r) by apply Hnet. unfold json. rewrite Hb. reflexivity.
  - unfold Auth.validateToken. rewrite Ha. cbn [negb]. run.
    rewrite (run_fetch _ r) by apply Hnet.
    destruct (ok r); [unfold json; rewrite Hb|run]; reflexivity.
Qed.

Lemma auth_body_not_json_witness :
  let net := Sample.answer (Resolved Fixture.bad_gateway) in
  snd (AuthMain.getClientCredentialsToken Sample.env net) = Threw SyntaxError /\
  snd (Auth.refreshToken Sample.env net) = Threw SyntaxError /\
  snd (Auth.validateToken Sample.env net)
  = if ok Fixture.bad_gateway then Threw SyntaxError else Returned JNull.
Proof.
  apply (auth_body_not_json Sample.env (Sample.answer (Resolved Fixture.bad_gateway))
           Fixture.bad_gateway); reflexivity.
Defined.

(** ** test-api.js, the rest *)

Lemma run_call {A B} (c : M A) (k : A -> M B) (net : network) (t : trace) (a : A) :
  c net = (t, Returned a) ->
  (x <- c ;; k x) net = after t (k a net).
Proof. intros H. unfold bind, after. rewrite H. now destruct (k a net). Qed.

Lemma has_items_none (P : platform) (v : jsval) :
  no_items v = true -> has_items P v = ret false.
Proof.
  destruct v as [| | | |s|items|]; try discriminate; try reflexivity.
  - destruct s; [reflexivity|discriminate].
  - destruct items; [reflexivity|discriminate].
Qed.

Lemma printable_or_value (v : jsval) (d : string) :
  printable v = true -> printable (or_value v (JStr d)) = true.
Proof. intros H. unfold or_value. now destruct (truthy v). Qed.

(** X13.  Without an access token in the environment the probe prints what
    is missing and exits with code 1, for every command; no request is
    sent. *)
Theorem probe_without_token (env : environment) (P : platform) (argv2 : option string)
    (net : network) :
  present (TWITCH_ACCESS_TOKEN env) = false ->
  let run := Probe.main env P argv2 net in
  fst run = [ConsoleLog [Str [Chars "No TWITCH_ACCESS_TOKEN found in ~/twitch-secrets/.env"]];
             ConsoleLog [Str [Chars "Run: node auth.js  (for auth options)"]];
             ProcessExit 1] /\
  fetches (fst run) = 0%nat /\
  exit_delay (fst run) = Some 0.
Proof.
  intros H run. subst run. unfold Probe.main, TestApi.ACCESS_TOKEN. rewrite H.
  repeat split.
Qed.

Lemma probe_without_token_witness :
  let run := Probe.main Sample.fresh_env Fixture.conversions (Some "all") Fixture.helix in
  fst run = [ConsoleLog [Str [Chars "No TWITCH_ACCESS_TOKEN found in ~/twitch-secrets/.env"]];
             ConsoleLog [Str [Chars "Run: node auth.js  (for auth options)"]];
             ProcessExit 1] /\
  fetches (fst run) = 0%nat /\
  exit_delay (fst run) = Some 0.
Proof.
  apply (probe_without_token Sample.fresh_env Fixture.conversions (Some "all") Fixture.helix).
  reflexivity.
Defined.

Section UserProbe.

Variable env : environment.
Variable P : platform.
Variable net : network.
Variable r : response.
Variable data : jsval.

Let endpoint : string := "/users?login=" ++ Probe.USERNAME env.

Hypothesis answered : net (TestApi.api_request env endpoint) = Resolved r.
Hypothesis parsed : body r = Some data.
Hypothesis not_null : nullish data = false.

Lemma getUser_without_items :
  no_items (field data "data") = true ->
  Probe.getUser env P net =
  ((ConsoleLog [Str [Chars ("=== GET USER INFO ===" ++ nl)]]
      :: fst (TestApi.apiCall env endpoint net)
      ++ [ConsoleLog [Str [Chars "User not found"]]])%list,
   Returned JNull).
Proof.
  intros Hnone. unfold Probe.getUser. fold endpoint. run.
  rewrite (apiCall_answered env endpoint net r data answered parsed).
  erewrite run_call by apply (apiCall_answered env endpoint net r data answered parsed).
  cbn [TestApi.res_data].
  rewrite (get_defined data) by exact not_null. run.
  rewrite (has_items_none P) by exact Hnone. run.
  reflexivity.
Qed.

(** X14.  When the body of the answer has no [data] with elements, which is
    the case of every error payload (401, 429, ...) as much as of an empty
    result, [getUser] prints [User not found] after the output of its one
    request and returns [null]. *)
Theorem get_user_not_found :
  no_items (field data "data") = true ->
  let run := Probe.getUser env P net in
  snd run = Returned JNull /\
  fst run = (ConsoleLog [Str [Chars ("=== GET USER INFO ===" ++ nl)]]
               :: fst (TestApi.apiCall env endpoint net)
               ++ [ConsoleLog [Str [Chars "User not found"]]])%list /\
  fetches (fst run) = 1%nat.
Proof.
  intros Hnone run. subst run. rewrite (getUser_without_items Hnone).
  repeat split. cbn [fst fetches].
  rewrite (apiCall_answered env endpoint net r data answered parsed). reflexivity.
Qed.

(** X15.  When [data] is an array with a first element that is not [null]
    and whose six printed fields convert to strings, [getUser] returns that
    first element, whatever follows it in the array; a falsy [type] is
    printed as [normal] and a falsy [broadcaster_type] as [none]. *)
Theorem get_user_found (user : jsval) (others : list jsval) :
  field data "data" = JArr (user :: others) ->
  nullish user = false ->
  printable_fields user ["id"; "login"; "display_name"; "type"; "broadcaster_type";
                         "created_at"] = true ->
  Probe.getUser env P net =
  ((ConsoleLog [Str [Chars ("=== GET USER INFO ===" ++ nl)]]
      :: fst (TestApi.apiCall env endpoint net)
      ++ [ConsoleLog [Str [Chars "User found:"]];
          ConsoleLog [Str (Chars "  ID: " :: text_of (field user "id"))];
          ConsoleLog [Str (Chars "  Login: " :: text_of (field user "login"))];
          ConsoleLog [Str (Chars "  Display Name: " :: text_of (field user "display_name"))];
          ConsoleLog [Str (Chars "  Type: "
                             :: text_of (or_value (field user "type") (JStr "normal")))];
          ConsoleLog [Str (Chars "  Broadcaster Type: "
                             :: text_of (or_value (field user "broadcaster_type")
                                           (JStr "none")))];
          ConsoleLog [Str (Chars "  Created: " :: text_of (field user "created_at"))]])%list,
   Returned user).
Proof.
  intros Hd Hn Hp. unfold printable_fields in Hp. cbn [forallb] in Hp.
  repeat (apply andb_prop in Hp as [? Hp]).
  repeat match goal with
         | H : printable (field user ?k) = true |- _ =>
             first [ constr_eq k "type" | constr_eq k "broadcaster_type" ];
             let H' := fresh in
             pose proof (printable_or_value _ "normal" H) as H';
             apply printable_text in H';
             let H'' := fresh in
             pose proof (printable_or_value _ "none" H) as H'';
             apply printable_text in H''; clear H
         | H : printable (field user ?k) = true |- _ => apply printable_text in H
         end.
  unfold Probe.getUser. fold endpoint. run.
  rewrite (apiCall_answered env endpoint net r data answered parsed).
  erewrite run_call by apply (apiCall_answered env endpoint net r data answered parsed).
  cbn [TestApi.res_data].
  rewrite (get_defined data) by exact not_null. run. rewrite Hd.
  unfold has_items, first. cbn [length_of List.length Nat.ltb Nat.leb]. run.
  rewrite !(get_defined user) by exact Hn.
  repeat (run;
          match goal with
          | |- context [bind (template ?ps) _ _] =>
              rewrite (run_template_cases ps); cbn [parts_text];
              match goal with
              | H : to_string ?v = Some _ |- context [to_string ?v] => rewrite H
              end
          end).
  run. rewrite !app_nil_r. reflexivity.
Qed.

End UserProbe.

(** The probe with a token that Helix does not accept. *)
Lemma get_user_not_found_witness :
  let net := Sample.answer (Resolved Fixture.unauthorized) in
  let endpoint := "/users?login=" ++ Probe.USERNAME Sample.env in
  let run := Probe.getUser Sample.env Fixture.conversions net in
  snd run = Returned JNull /\
  fst run = (ConsoleLog [Str [Chars ("=== GET USER INFO ===" ++ nl)]]
               :: fst (TestApi.apiCall Sample.env endpoint net)
               ++ [ConsoleLog [Str [Chars "User not found"]]])%list /\
  fetches (fst run) = 1%nat.
Proof.
  apply (get_user_not_found Sample.env Fixture.conversions
           (Sample.answer (Resolved Fixture.unauthorized)) Fixture.unauthorized
           (JObj [("error", JStr "Unauthorized"); ("status", JNum 401%float);
                  ("message", JStr "Invalid OAuth token")]));
    reflexivity.
Defined.

(** The probe for the sample user. *)
Lemma get_user_found_witness :
  let endpoint := "/users?login=" ++ Probe.USERNAME Sample.env in
  let user := Fixture.user in
  Probe.getUser Sample.env Fixture.conversions Fixture.helix =
  ((ConsoleLog [Str [Chars ("=== GET USER INFO ===" ++ nl)]]
      :: fst (TestApi.apiCall Sample.env endpoint Fixture.helix)
      ++ [ConsoleLog [Str [Chars "User found:"]];
          ConsoleLog [Str (Chars "  ID: " :: text_of (field user "id"))];
          ConsoleLog [Str (Chars "  Login: " :: text_of (field user "login"))];
          ConsoleLog [Str (Chars "  Display Name: " :: text_of (field user "display_name"))];
          ConsoleLog [Str (Chars "  Type: "
                             :: text_of (or_value (field user "type") (JStr "normal")))];
          ConsoleLog [Str (Chars "  Broadcaster Type: "
                             :: text_of (or_value (field user "broadcaster_type")
                                           (JStr "none")))];
          ConsoleLog [Str (Chars "  Created: " :: text_of (field user "created_at"))]])%list,
   Returned user).
Proof.
  apply (get_user_found Sample.env Fixture.conversions Fixture.helix Fixture.users
           (JObj [("data", JArr [Fixture.user])]) eq_refl eq_refl eq_refl
           Fixture.user []); reflexivity.
Defined.

(** The sample user has an empty [type], which is printed as [normal]. *)
Example get_user_sample_type :
  In (ConsoleLog [Str [Chars "  Type: "; Chars "normal"]])
     (fst (Probe.getUser Sample.env Fixture.conversions Fixture.helix)).
Proof. cbn. auto 20. Qed.

Section NoUser.

Variable env : environment.
Variable P : platform.
Variable net : network.
Variable r : response.
Variable data : jsval.

Hypothesis configured : present (TWITCH_ACCESS_TOKEN env) = true.
Hypothesis answered :
  net (TestApi.api_request env ("/users?login=" ++ Probe.USERNAME env)) = Resolved r.
Hypothesis parsed : body r = Some data.
Hypothesis not_null : nullish data = false.
Hypothesis none : no_items (field data "data") = true.

(** X16.  When the first probe finds no user, the commands [followers],
    [stream] and [all] stop after that one request: no follower or stream
    request is sent; [all] still prints its summary. *)
Theorem probe_stops_without_user :
  let found := fst (Probe.getUser env P net) in
  fetches found = 1%nat /\
  Probe.main env P (Some "followers") net = (found, Returned tt) /\
  Probe.main env P (Some "stream") net = (found, Returned tt) /\
  Probe.main env P (Some "all") net =
    ((found ++ [ConsoleLog [Str [Chars (nl ++ "=== SUMMARY ===")]];
                ConsoleLog [Str [Chars "All endpoints tested. See rate limits above."]]])%list,
     Returned tt).
Proof.
  intros found. subst found.
  pose proof (getUser_without_items env P net r data answered parsed not_null none) as Hu.
  cbv zeta in Hu.
  assert (Hone : fetches (fst (Probe.getUser env P net)) = 1%nat).
  { rewrite Hu. cbn [fst fetches].
    rewrite (apiCall_answered env _ net r data answered parsed). reflexivity. }
  split; [exact Hone|].
  unfold Probe.main, TestApi.ACCESS_TOKEN. rewrite configured. cbn [negb].
  repeat split; cbn [command_of present or_undefined String.eqb Ascii.eqb Bool.eqb negb];
    erewrite run_call by exact Hu; cbn [truthy]; run; rewrite Hu;
    unfold after; cbn [fst snd]; now rewrite ?app_nil_r.
Qed.

End NoUser.

Lemma probe_stops_without_user_witness :
  let net := Sample.answer (Resolved Fixture.nobody) in
  let found := fst (Probe.getUser Sample.env Fixture.conversions net) in
  fetches found = 1%nat /\
  Probe.main Sample.env Fixture.conversions (Some "followers") net = (found, Returned tt) /\
  Probe.main Sample.env Fixture.conversions (Some "stream") net = (found, Returned tt) /\
  Probe.main Sample.env Fixture.conversions (Some "all") net =
    ((found ++ [ConsoleLog [Str [Chars (nl ++ "=== SUMMARY ===")]];
                ConsoleLog [Str [Chars "All endpoints tested. See rate limits above."]]])%list,
     Returned tt).
Proof.
  apply (probe_stops_without_user Sample.env Fixture.conversions
           (Sample.answer (Resolved Fixture.nobody)) Fixture.nobody
           (JObj [("data", JArr [])])); reflexivity.
Defined.

Section FollowerProbe.

Variable env : environment.
Variable P : platform.


Lemma apiCall_fetch (endpoint : string) : at_most is_fetch 1 (TestApi.apiCall env endpoint).
Proof. unfold TestApi.apiCall. tally. Qed.

Lemma apiCall_stays (endpoint : string) : at_most exits 0 (TestApi.apiCall env endpoint).
Proof. unfold TestApi.apiCall. tally. Qed.




Variable net : network.
Variable r : response.
Variable data : jsval.
Variable broadcasterId : jsval.

Let endpoint : string :=
  "/channels/followers?broadcaster_id=" ++ flat P (text_of broadcasterId).

Hypothesis id_printable : printable broadcasterId = true.
Hypothesis answered : net (TestApi.api_request env endpoint) = Resolved r.
Hypothesis parsed : body r = Some data.
Hypothesis not_null : nullish data = false.

(** X18.  When the body of the answer has no [data] with elements,
    [getFollowers] prints the [total] field as it is and returns it; for an
    error payload, which has no [total], it prints [undefined] and returns
    [undefined], without any sign of the failure. *)
Theorem get_followers_without_list :
  no_items (field data "data") = true ->
  printable (field data "total") = true ->
  Probe.getFollowers env P broadcasterId net =
  ((ConsoleLog [Str [Chars (nl ++ "=== GET FOLLOWERS ===" ++ nl)]]
      :: fst (TestApi.apiCall env endpoint net)
      ++ [ConsoleLog [Str (Chars "Total followers: " :: text_of (field data "total"))]])%list,
   Returned (field data "total")).
Proof.
  intros Hnone Pt. apply printable_text in Pt. pose proof id_printable as Pi.
  apply printable_text in Pi.
  unfold Probe.getFollowers. run.
  rewrite (run_template _ (Chars "/channels/followers?broadcaster_id=" :: text_of broadcasterId))
    by (cbn; now rewrite Pi, app_nil_r).
  cbn [flat]. fold endpoint.
  rewrite (apiCall_answered env endpoint net r data answered parsed).
  erewrite run_call by apply (apiCall_answered env endpoint net r data answered parsed).
  cbn [TestApi.res_data].
  rewrite !(get_defined data) by exact not_null. run.
  rewrite (run_template _ (Chars "Total followers: " :: text_of (field data "total")))
    by (cbn; now rewrite Pt, app_nil_r).
  run. rewrite (has_items_none P) by exact Hnone. run.
  reflexivity.
Qed.

End FollowerProbe.

(** Seven followers in the answer, five of them printed: fourteen lines. *)
Example get_followers_sample :
  let run := Probe.getFollowers Sample.env Fixture.conversions (JStr "141981764")
               Fixture.helix in
  occurrences is_log (fst run) = 14%nat /\
  snd run = Returned (JStr "7") /\
  In (ConsoleLog [Str [Chars "  - "; Chars "e"; Chars " (followed: ";
                       Chars "2022-05-24T22:22:08Z"; Chars ")"]]) (fst run) /\
  ~ In (ConsoleLog [Str [Chars "  - "; Chars "f"; Chars " (followed: ";
                         Chars "2022-05-24T22:22:08Z"; Chars ")"]]) (fst run).
Proof.
  cbn. repeat split; auto 30.
  intros H. repeat (destruct H as [H|H]; [discriminate H|]). exact H.
Qed.

(** The token was revoked between the two probes. *)
Lemma get_followers_without_list_witness :
  let net := Sample.answer (Resolved Fixture.unauthorized) in
  let endpoint := "/channels/followers?broadcaster_id="
                  ++ flat Fixture.conversions (text_of (JStr "141981764")) in
  let data := JObj [("error", JStr "Unauthorized"); ("status", JNum 401%float);
                    ("message", JStr "Invalid OAuth token")] in
  Probe.getFollowers Sample.env Fixture.conversions (JStr "141981764") net =
  ((ConsoleLog [Str [Chars (nl ++ "=== GET FOLLOWERS ===" ++ nl)]]
      :: fst (TestApi.apiCall Sample.env endpoint net)
      ++ [ConsoleLog [Str (Chars "Total followers: " :: text_of (field data "total"))]])%list,
   Returned (field data "total")).
Proof.
  apply (get_followers_without_list Sample.env Fixture.conversions
           (Sample.answer (Resolved Fixture.unauthorized)) Fixture.unauthorized
           (JObj [("error", JStr "Unauthorized"); ("status", JNum 401%float);
                  ("message", JStr "Invalid OAuth token")])
           (JStr "141981764")); reflexivity.
Defined.

Example get_followers_revoked :
  let run := Probe.getFollowers Sample.env Fixture.conversions (JStr "141981764")
               (Sample.answer (Resolved Fixture.unauthorized)) in
  snd run = Returned JUndefined /\
  In (ConsoleLog [Str [Chars "Total followers: "; Chars "undefined"]]) (fst run).
Proof. cbn. split; auto 20. Qed.

Section ProbeCommands.

Variable env : environment.
Variable P : platform.

Lemma getUser_fetch : at_most is_fetch 1 (Probe.getUser env P).
Proof. unfold Probe.getUser, TestApi.apiCall. tally. Qed.

Lemma recent_followers_free (p : effect -> bool) (items : jsval) :
  (forall f, at_most p 0 (Probe.print_follower f)) ->
  at_most p 0 (recent <- call_slice items 5 ;; for_each recent Probe.print_follower).
Proof.
  intros Hf. destruct items as [| | | | |l|]; try (intros net; cbn; lia).
  intros net. unfold call_slice. rewrite run_ret.
  pose proof (at_most_for_each p 0 (firstn 5 l) Probe.print_follower Hf net) as H.
  now rewrite Nat.mul_0_r in H.
Qed.

Lemma getFollowers_fetch (id : jsval) : at_most is_fetch 1 (Probe.getFollowers env P id).
Proof.
  unfold Probe.getFollowers.
  apply at_most_free; [tally|intros _].
  apply at_most_free; [tally|intros endpoint].
  apply (at_most_bind is_fetch 1 0); [unfold TestApi.apiCall; tally|intros result].
  apply at_most_free; [tally|intros total].
  apply at_most_free; [tally|intros line].
  apply at_most_free; [tally|intros _].
  apply at_most_free; [tally|intros items].
  apply at_most_free; [tally|intros some].
  apply at_most_free; [|intros _; tally].
  destruct some; [|tally].
  apply at_most_free; [tally|intros _].
  apply recent_followers_free. intros f. unfold Probe.print_follower. tally.
Qed.

Lemma getStream_fetch (id : jsval) : at_most is_fetch 1 (Probe.getStream env P id).
Proof. unfold Probe.getStream, TestApi.apiCall. tally. Qed.

Lemma getUser_stays : at_most exits 0 (Probe.getUser env P).
Proof. unfold Probe.getUser, TestApi.apiCall. tally. Qed.

Lemma getFollowers_stays (id : jsval) : at_most exits 0 (Probe.getFollowers env P id).
Proof.
  unfold Probe.getFollowers.
  apply at_most_free; [tally|intros _].
  apply at_most_free; [tally|intros endpoint].
  apply at_most_free; [unfold TestApi.apiCall; tally|intros result].
  apply at_most_free; [tally|intros total].
  apply at_most_free; [tally|intros line].
  apply at_most_free; [tally|intros _].
  apply at_most_free; [tally|intros items].
  apply at_most_free; [tally|intros some].
  apply at_most_free; [|intros _; tally].
  destruct some; [|tally].
  apply at_most_free; [tally|intros _].
  apply recent_followers_free. intros f. unfold Probe.print_follower. tally.
Qed.

Lemma getStream_stays (id : jsval) : at_most exits 0 (Probe.getStream env P id).
Proof. unfold Probe.getStream, TestApi.apiCall. tally. Qed.

(** The requests a command may send. *)
Let budget (command : string) : nat :=
  if String.eqb command "user" then 1
  else if String.eqb command "followers" then 2
  else if String.eqb command "stream" then 2
  else if String.eqb command "all" then 3
  else 0.

Lemma probe_main_fetches (argv2 : option string) :
  at_most is_fetch (budget (command_of argv2)) (Probe.main env P argv2).
Proof.
  unfold Probe.main, budget.
  destruct (negb (present (TestApi.ACCESS_TOKEN env))); [tally|].
  destruct (String.eqb (command_of argv2) "user").
  { apply (at_most_bind is_fetch 1 0); [apply getUser_fetch|intros _; tally]. }
  destruct (String.eqb (command_of argv2) "followers").
  { apply (at_most_bind is_fetch 1 1); [apply getUser_fetch|intros user].
    destruct (truthy user); [|tally].
    apply at_most_free; [tally|intros id].
    apply (at_most_bind is_fetch 1 0); [apply getFollowers_fetch|intros _; tally]. }
  destruct (String.eqb (command_of argv2) "stream").
  { apply (at_most_bind is_fetch 1 1); [apply getUser_fetch|intros user].
    destruct (truthy user); [|tally].
    apply at_most_free; [tally|intros id].
    apply (at_most_bind is_fetch 1 0); [apply getStream_fetch|intros _; tally]. }
  destruct (String.eqb (command_of argv2) "all"); [|unfold Probe.usage; tally].
  apply (at_most_bind is_fetch 1 2); [apply getUser_fetch|intros user].
  apply (at_most_bind is_fetch 2 0); [|intros _; tally].
  destruct (truthy user); [|tally].
  apply at_most_free; [tally|intros id].
  apply (at_most_bind is_fetch 1 1); [apply getFollowers_fetch|intros _].
  apply at_most_free; [tally|intros id'].
  apply (at_most_bind is_fetch 1 0); [apply getStream_fetch|intros _; tally].
Qed.

Lemma probe_main_stays (argv2 : option string) :
  present (TWITCH_ACCESS_TOKEN env) = true ->
  at_most exits 0 (Probe.main env P argv2).
Proof.
  intros Ht. unfold Probe.main, TestApi.ACCESS_TOKEN. rewrite Ht. cbn [negb].
  destruct (String.eqb (command_of argv2) "user").
  { apply at_most_free; [apply getUser_stays|intros _; tally]. }
  destruct (String.eqb (command_of argv2) "followers").
  { apply at_most_free; [apply getUser_stays|intros user].
    destruct (truthy user); [|tally].
    apply at_most_free; [tally|intros id].
    apply at_most_free; [apply getFollowers_stays|intros _; tally]. }
  destruct (String.eqb (command_of argv2) "stream").
  { apply at_most_free; [apply getUser_stays|intros user].
    destruct (truthy user); [|tally].
    apply at_most_free; [tally|intros id].
    apply at_most_free; [apply getStream_stays|intros _; tally]. }
  destruct (String.eqb (command_of argv2) "all"); [|unfold Probe.usage; tally].
  apply at_most_free; [apply getUser_stays|intros user].
  apply at_most_free; [|intros _; tally].
  destruct (truthy user); [|tally].
  apply at_most_free; [tally|intros id].
  apply at_most_free; [apply getFollowers_stays|intros _].
  apply at_most_free; [tally|intros id'].
  apply at_most_free; [apply getStream_stays|intros _; tally].
Qed.

(** X19.  No command of the probe retries: whatever Helix answers, [user]
    sends at most one request, [followers] and [stream] at most two, [all]
    at most three and any other command none.  The process is told to exit
    only when the access token is missing. *)
Theorem probe_main_bounded (argv2 : option string) (net : network) :
  let t := fst (Probe.main env P argv2 net) in
  let command := command_of argv2 in
  (fetches t <= if String.eqb command "user" then 1
                else if String.eqb command "followers" then 2
                else if String.eqb command "stream" then 2
                else if String.eqb command "all" then 3
                else 0)%nat /\
  existsb exits t = negb (present (TWITCH_ACCESS_TOKEN env)).
Proof.
  intros t command. subst t command. split.
  - rewrite fetches_occurrences. apply probe_main_fetches.
  - destruct (present (TWITCH_ACCESS_TOKEN env)) eqn:Ht.
    + apply exits_occurrences, at_most_none. now apply probe_main_stays.
    + unfold Probe.main, TestApi.ACCESS_TOKEN. rewrite Ht. reflexivity.
Qed.

Variable net : network.
Variable r : response.
Variable data : jsval.
Variable userId : jsval.

Let endpoint : string := "/streams?user_id=" ++ flat P (text_of userId).

Hypothesis id_printable : printable userId = true.
Hypothesis answered : net (TestApi.api_request env endpoint) = Resolved r.
Hypothesis parsed : body r = Some data.
Hypothesis not_null : nullish data = false.

(** X20.  When the body of the answer has no [data] with elements,
    [getStream] prints [Not currently live] and returns [null]: a channel
    that is offline and a request that Helix refused look the same. *)
Theorem get_stream_not_live :
  no_items (field data "data") = true ->
  Probe.getStream env P userId net =
  ((ConsoleLog [Str [Chars (nl ++ "=== GET STREAM STATUS ===" ++ nl)]]
      :: fst (TestApi.apiCall env endpoint net)
      ++ [ConsoleLog [Str [Chars "Not currently live"]]])%list,
   Returned JNull).
Proof.
  intros Hnone. pose proof id_printable as Pi. apply printable_text in Pi.
  unfold Probe.getStream. run.
  rewrite (run_template _ (Chars "/streams?user_id=" :: text_of userId))
    by (cbn; now rewrite Pi, app_nil_r).
  cbn [flat]. fold endpoint.
  rewrite (apiCall_answered env endpoint net r data answered parsed).
  erewrite run_call by apply (apiCall_answered env endpoint net r data answered parsed).
  cbn [TestApi.res_data].
  rewrite (get_defined data) by exact not_null. run.
  rewrite (has_items_none P) by exact Hnone. run.
  reflexivity.
Qed.

End ProbeCommands.

(** The sample channel is offline. *)
Lemma get_stream_not_live_witness :
  let endpoint := "/streams?user_id="
                  ++ flat Fixture.conversions (text_of (JStr "141981764")) in
  Probe.getStream Sample.env Fixture.conversions (JStr "141981764") Fixture.helix =
  ((ConsoleLog [Str [Chars (nl ++ "=== GET STREAM STATUS ===" ++ nl)]]
      :: fst (TestApi.apiCall Sample.env endpoint Fixture.helix)
      ++ [ConsoleLog [Str [Chars "Not currently live"]]])%list,
   Returned JNull).
Proof.
  apply (get_stream_not_live Sample.env Fixture.conversions Fixture.helix
           Fixture.offline_stream (JObj [("data", JArr [])]) (JStr "141981764"));
    reflexivity.
Defined.

(** The command [all] for the sample user: the three requests, in order,
    the last two for the id that the first one returned. *)
Example probe_all_sample :
  let run := Probe.main Sample.env Fixture.conversions (Some "all") Fixture.helix in
  map req_url
      (flat_map (fun e => match e with Fetch q => [q] | _ => [] end) (fst run))
  = ["https://api.twitch.tv/helix/users?login=devopsphilosopher";
     "https://api.twitch.tv/helix/channels/followers?broadcaster_id=141981764";
     "https://api.twitch.tv/helix/streams?user_id=141981764"] /\
  snd run = Returned tt.
Proof. split; reflexivity. Qed.
